(** * Alumicraft/emails: the desk scripts of the branded-email app

    A shallow embedding of the client scripts
      - [emails/public/js/send_email_button.js]  (module [SendEmailButton]),
      - the second, send-only copy of that script (module [SendOnlyButton]),
      - [emails/emails/doctype/email_service_settings/email_service_settings.js]
        (module [EmailServiceSettings]),
    over a small model of the JavaScript values they inspect and of the
    Frappe desk objects they drive ([frm], [frappe.call], dialogs, prompts).

    Conventions of the embedding:
      - a JavaScript function that mutates [frm], shows something or calls
        the server is a computation in the state monad [Desk] over [World];
      - a [frappe.call] is performed at the point where it is issued and its
        callback runs on the reply (the calls of the send/resend script are
        [async: false]; for the others the reply is the one the server
        gives in the state at hand).  A call whose HTTP request fails never
        reaches its callback and is outside this model;
      - the server methods of [emails.api] are Python and are taken as
        fields of [Backend]. *)

From Stdlib Require Import String List ZArith Bool Lia.
Import ListNotations.
Open Scope string_scope.
Open Scope list_scope.
Set Warnings "-register-all".

(** ** JavaScript values *)

Inductive value : Type :=
| undefined
| null
| boolean (b : bool)
| number (n : Z)
| str (s : string)
| object (props : list (string * value)).

(** ToBoolean, as used by [if (v)], [v ? a : b] and [a && b]. *)
Definition truthy (v : value) : bool :=
  match v with
  | undefined | null => false
  | boolean b => b
  | number n => negb (n =? 0)%Z
  | str s => negb (s =? "")
  | object _ => true
  end.

Fixpoint assoc {A : Type} (k : string) (l : list (string * A)) : option A :=
  match l with
  | [] => None
  | (k', v) :: l' => if k' =? k then Some v else assoc k l'
  end.

(** Property read [v.k] on a value that is not [null] or [undefined]
    (the scripts only read properties behind a truthiness test). *)
Definition get_prop (v : value) (k : string) : value :=
  match v with
  | object props => match assoc k props with Some x => x | None => undefined end
  | _ => undefined
  end.

(** [Array.prototype.includes] on an array of strings. *)
Definition includes (l : list string) (x : string) : bool :=
  existsb (String.eqb x) l.

(** ** The Frappe desk *)

(** The closures the scripts hand to the desk, defunctionalised. *)
Inductive handler : Type :=
| show_dialog_handler      (* function() { emails.show_send_email_dialog(frm); } *)
| noop_handler             (* function() { } *)
| send_handler.            (* function(values) { dialog.hide();
                                emails.send_document_email(frm, values); } *)

Record Document : Type := { name : string; docstatus : Z }.

Record Form : Type := {
  doctype : string;
  doc : Document;
  custom_buttons : list (string * handler)
}.

Record Field : Type := {
  fieldname : string;
  fieldtype : string;
  label : string;
  reqd : value;
  default : value;
  options : value
}.

Record Dialog : Type := {
  title : string;
  fields : list Field;
  primary_action_label : string;
  primary_action : handler
}.

(** What the operator gets to see, in order of appearance. *)
Inductive ui_event : Type :=
| frappe_confirm (message : string) (on_yes on_no : handler)
| dialog_show (d : Dialog)
| dialog_hide
| frappe_show_alert (message indicator : string)
| frappe_msgprint (title : string) (message : value) (indicator : string)
| frm_reload_doc.

(** Modelled from the spec: the status of a send record.  The Communication
    doctype belongs to the framework and is not declared under src/; the
    spec's SendRecord gives it a status that is Success or Failed. *)
Inductive SendStatus : Type := Success | Failed.

(** Modelled from the spec: a row of the Communication doctype, with the four
    fields the scripts filter on and the status of the spec's SendRecord. *)
Record Communication : Type := {
  reference_doctype : string;
  reference_name : string;
  communication_medium : string;
  sent_or_received : string;
  status : SendStatus
}.

Record Values : Type := { to_email : value; cc : value; custom_message : value }.

(** The server: the three whitelisted methods of [emails.api] the scripts
    call (Python, not under src/: any function may stand here) and the
    Communication table read by [frappe.client.get_count]. *)
Record Backend : Type := {
  api_check_doctype_email_enabled : string -> value;
  api_get_document_recipient : string -> string -> value;
  api_send_document_email :
    string -> string -> Values -> list Communication -> value * list Communication;
  communications : list Communication
}.

Record World : Type := {
  backend : Backend;
  frm : Form;
  ui : list ui_event
}.

(** *** The state monad of desk computations *)

Definition Desk (A : Type) : Type := World -> A * World.

Definition ret {A : Type} (a : A) : Desk A := fun w => (a, w).

Definition bind {A B : Type} (m : Desk A) (k : A -> Desk B) : Desk B :=
  fun w => let (a, w') := m w in k a w'.

Declare Scope desk_scope.
Delimit Scope desk_scope with desk.
Notation "x <- m ;; k" := (bind m (fun x => k))
  (at level 61, m at next level, right associativity) : desk_scope.
Notation "m ;;; k" := (bind m (fun _ => k))
  (at level 61, right associativity) : desk_scope.
Open Scope desk_scope.

Definition exec {A : Type} (m : Desk A) (w : World) : World := snd (m w).
Definition eval {A : Type} (m : Desk A) (w : World) : A := fst (m w).

Definition get_frm : Desk Form := fun w => (frm w, w).

Definition set_buttons (bs : list (string * handler)) : Desk unit :=
  fun w => (tt, {| backend := backend w;
                   frm := {| doctype := doctype (frm w); doc := doc (frm w);
                             custom_buttons := bs |};
                   ui := ui w |}).

Definition show (e : ui_event) : Desk unit :=
  fun w => (tt, {| backend := backend w; frm := frm w; ui := ui w ++ [e] |}).

(** [frm.remove_custom_button(label)]: the buttons with that label go. *)
Definition remove_custom_button (l : string) : Desk unit :=
  f <- get_frm ;;
  set_buttons (filter (fun b => negb (fst b =? l)) (custom_buttons f)).

(** [frm.add_custom_button(label, fn)]: a further button, after the others.
    The desk's own code is not part of the repository; a button is taken to
    stay until it is removed, which is the case in which the removals of the
    send/resend script matter. *)
Definition add_custom_button (l : string) (fn : handler) : Desk unit :=
  f <- get_frm ;;
  set_buttons (custom_buttons f ++ [(l, fn)]).

(** *** Server calls *)

Definition comm_field (c : Communication) (k : string) : option string :=
  if k =? "reference_doctype" then Some (reference_doctype c)
  else if k =? "reference_name" then Some (reference_name c)
  else if k =? "communication_medium" then Some (communication_medium c)
  else if k =? "sent_or_received" then Some (sent_or_received c)
  else None.

Definition matches (filters : list (string * string)) (c : Communication) : bool :=
  forallb (fun kv => match comm_field c (fst kv) with
                     | Some x => x =? snd kv
                     | None => false
                     end) filters.

(** [frappe.client.get_count]: the number of rows of the named doctype that
    satisfy every filter; only the Communication table is modelled. *)
Definition get_count (dt : string) (filters : list (string * string))
    (b : Backend) : Z :=
  if dt =? "Communication"
  then Z.of_nat (length (filter (matches filters) (communications b)))
  else 0%Z.

Definition call_get_count (dt : string) (filters : list (string * string)) : Desk Z :=
  fun w => (get_count dt filters (backend w), w).

Definition call_check_doctype_email_enabled (dt : string) : Desk value :=
  fun w => (api_check_doctype_email_enabled (backend w) dt, w).

Definition call_get_document_recipient (dt docname : string) : Desk value :=
  fun w => (api_get_document_recipient (backend w) dt docname, w).

(** The one call that may write: the server method answers and leaves the
    Communication table as it sees fit. *)
Definition call_send_document_email (dt docname : string) (v : Values) : Desk value :=
  fun w =>
    let (r, cs) := api_send_document_email (backend w) dt docname v
                     (communications (backend w)) in
    (r, {| backend := {| api_check_doctype_email_enabled :=
                           api_check_doctype_email_enabled (backend w);
                         api_get_document_recipient :=
                           api_get_document_recipient (backend w);
                         api_send_document_email :=
                           api_send_document_email (backend w);
                         communications := cs |};
           frm := frm w; ui := ui w |}).

(** ** emails/public/js/send_email_button.js *)

Module SendEmailButton.
Section Script.
(** [__], the desk's translation of a message. *)
Variable __ : string -> string.

Definition SUPPORTED_DOCTYPES : list string :=
  [ "Quotation";
    "Sales Order";
    "Payment Entry";
    "Purchase Order";
    "Payment Request" ].

Definition sent_filters (f : Form) : list (string * string) :=
  [ ("reference_doctype", doctype f);
    ("reference_name", name (doc f));
    ("communication_medium", "Email");
    ("sent_or_received", "Sent") ].

Definition check_email_sent : Desk bool :=
  f <- get_frm ;;
  r <- call_get_count "Communication" (sent_filters f) ;;
  ret (0 <? r)%Z.

Definition setup_send_email_button : Desk unit :=
  f <- get_frm ;;
  if negb (docstatus (doc f) =? 1)%Z then ret tt
  else if negb (includes SUPPORTED_DOCTYPES (doctype f)) then ret tt
  else
    remove_custom_button (__ "Send Email") ;;;
    remove_custom_button (__ "Resend Email") ;;;
    r <- call_check_doctype_email_enabled (doctype f) ;;
    if truthy r && truthy (get_prop r "enabled") then
      count_r <- call_get_count "Communication" (sent_filters f) ;;
      let email_sent := (0 <? count_r)%Z in
      let button_label :=
        if email_sent then __ "Resend Email" else __ "Send Email" in
      add_custom_button button_label show_dialog_handler
    else ret tt.

Definition prompt_send_email_after_submit : Desk unit :=
  f <- get_frm ;;
  if negb (includes SUPPORTED_DOCTYPES (doctype f)) then ret tt
  else
    r <- call_check_doctype_email_enabled (doctype f) ;;
    if truthy r && truthy (get_prop r "enabled") then
      show (frappe_confirm (__ "Would you like to send an email to the customer?")
              show_dialog_handler noop_handler)
    else ret tt.

Definition show_send_email_dialog : Desk unit :=
  f <- get_frm ;;
  r <- call_get_document_recipient (doctype f) (name (doc f)) ;;
  let default_email := if truthy r then get_prop r "email" else str "" in
  let dialog :=
    {| title := __ "Send Email via Resend";
       fields :=
         [ {| fieldname := "to_email"; fieldtype := "Data";
              label := __ "Recipient Email"; reqd := number 1;
              default := default_email; options := str "Email" |};
           {| fieldname := "cc"; fieldtype := "Data";
              label := __ "CC"; reqd := undefined;
              default := undefined; options := str "Email" |};
           {| fieldname := "custom_message"; fieldtype := "Small Text";
              label := __ "Additional Message (Optional)"; reqd := undefined;
              default := undefined; options := undefined |} ];
       primary_action_label := __ "Send";
       primary_action := send_handler |} in
  show (dialog_show dialog).

Definition send_document_email (values : Values) : Desk unit :=
  f <- get_frm ;;
  r <- call_send_document_email (doctype f) (name (doc f)) values ;;
  if truthy r && truthy (get_prop r "success") then
    show (frappe_show_alert (__ "Email sent successfully") "green") ;;;
    show frm_reload_doc
  else
    show (frappe_msgprint (__ "Email Failed")
            (if truthy r then get_prop r "message" else str (__ "Unknown error"))
            "red").

(** Running a closure the script installed. *)
Definition run_handler (h : handler) (values : Values) : Desk unit :=
  match h with
  | show_dialog_handler => show_send_email_dialog
  | noop_handler => ret tt
  | send_handler => show dialog_hide ;;; send_document_email values
  end.

(** The hooks registered at [$(document).ready]: one pair per supported
    doctype; a form of another doctype has no hook of this script. *)
Definition on_refresh : Desk unit :=
  f <- get_frm ;;
  if includes SUPPORTED_DOCTYPES (doctype f) then setup_send_email_button
  else ret tt.

Definition on_after_submit : Desk unit :=
  f <- get_frm ;;
  if includes SUPPORTED_DOCTYPES (doctype f) then prompt_send_email_after_submit
  else ret tt.

End Script.
End SendEmailButton.

(** ** The send-only copy of the script (its file name is not recorded) *)

Module SendOnlyButton.
Section Script.
Variable __ : string -> string.

Definition SUPPORTED_DOCTYPES : list string :=
  [ "Sales Invoice";
    "Quotation";
    "Sales Order";
    "Delivery Note";
    "Payment Entry";
    "Purchase Order";
    "Payment Request" ].

Definition setup_send_email_button : Desk unit :=
  f <- get_frm ;;
  if negb (docstatus (doc f) =? 1)%Z then ret tt
  else if negb (includes SUPPORTED_DOCTYPES (doctype f)) then ret tt
  else
    r <- call_check_doctype_email_enabled (doctype f) ;;
    if truthy r && truthy (get_prop r "enabled") then
      add_custom_button (__ "Send Email") show_dialog_handler
    else ret tt.

Definition show_send_email_dialog : Desk unit :=
  f <- get_frm ;;
  r <- call_get_document_recipient (doctype f) (name (doc f)) ;;
  let default_email := if truthy r then get_prop r "email" else str "" in
  let dialog :=
    {| title := __ "Send Email via Resend";
       fields :=
         [ {| fieldname := "to_email"; fieldtype := "Data";
              label := __ "Recipient Email"; reqd := number 1;
              default := default_email; options := str "Email" |};
           {| fieldname := "cc"; fieldtype := "Data";
              label := __ "CC"; reqd := undefined;
              default := undefined; options := str "Email" |};
           {| fieldname := "custom_message"; fieldtype := "Small Text";
              label := __ "Additional Message (Optional)"; reqd := undefined;
              default := undefined; options := undefined |} ];
       primary_action_label := __ "Send";
       primary_action := send_handler |} in
  show (dialog_show dialog).

Definition send_document_email (values : Values) : Desk unit :=
  f <- get_frm ;;
  r <- call_send_document_email (doctype f) (name (doc f)) values ;;
  if truthy r && truthy (get_prop r "success") then
    show (frappe_show_alert (__ "Email sent successfully") "green") ;;;
    show frm_reload_doc
  else
    show (frappe_msgprint (__ "Email Failed")
            (if truthy r then get_prop r "message" else str (__ "Unknown error"))
            "red").

Definition on_refresh : Desk unit :=
  f <- get_frm ;;
  if includes SUPPORTED_DOCTYPES (doctype f) then setup_send_email_button
  else ret tt.

End Script.
End SendOnlyButton.

(** ** emails/emails/doctype/email_service_settings/email_service_settings.js *)

Module EmailServiceSettings.

(** A row of the child table [supported_doctypes]
    (doctype Email Doctype Configuration), as the script reads and writes it. *)
Record Row : Type := {
  doctype_name : value;
  print_format : value;
  enabled : value;
  recipient_field : value;
  recipient_doctype : value;
  source_app : value;
  require_submit : value
}.

(** The framework's Print Format documents, with the fields the query names. *)
Record PrintFormat : Type := {
  pf_name : string;
  doc_type : string;
  disabled : Z
}.

(** [frm.set_query("print_format", "supported_doctypes", function ...)] *)
Definition print_format_query (row : Row) : value :=
  if truthy (doctype_name row) then
    object [ ("filters", object [ ("doc_type", doctype_name row);
                                  ("disabled", number 0) ]) ]
  else object [].

(** [frm.set_query("doctype_name", "supported_doctypes", function ...)] *)
Definition doctype_name_query : value :=
  object [ ("filters", object [ ("istable", number 0); ("issingle", number 0) ]) ].

Definition pf_field (p : PrintFormat) (k : string) : value :=
  if k =? "name" then str (pf_name p)
  else if k =? "doc_type" then str (doc_type p)
  else if k =? "disabled" then number (disabled p)
  else undefined.

(** Equality of a stored field with a filter value (primitives only). *)
Definition field_eqb (a b : value) : bool :=
  match a, b with
  | str x, str y => x =? y
  | number x, number y => (x =? y)%Z
  | boolean x, boolean y => Bool.eqb x y
  | _, _ => false
  end.

Definition satisfies (filters : value) (p : PrintFormat) : bool :=
  match filters with
  | object kvs => forallb (fun kv => field_eqb (pf_field p (fst kv)) (snd kv)) kvs
  | _ => true
  end.

(** The choices a Link field to Print Format offers under a query: the
    documents that satisfy the query's filters, all of them if it has none. *)
Definition offered (formats : list PrintFormat) (query : value) : list PrintFormat :=
  filter (satisfies (get_prop query "filters")) formats.

(** Picking a choice writes its name into the row. *)
Definition pick (row : Row) (p : PrintFormat) : Row :=
  {| doctype_name := doctype_name row;
     print_format := str (pf_name p);
     enabled := enabled row;
     recipient_field := recipient_field row;
     recipient_doctype := recipient_doctype row;
     source_app := source_app row;
     require_submit := require_submit row |}.

(** *** The settings form: buttons, dialogs and the child table *)

(** [a || b] *)
Definition js_or (a b : value) : value := if truthy a then a else b.

(** An entry of the reply of [get_available_doctypes_for_site]; the three
    texts that are written into the page are strings. *)
Record AvailableDoctype : Type := {
  doctype : string;
  app : string;
  category : string;
  is_configured : value;
  default_recipient_field : value;
  default_recipient_doctype : value
}.

(** The closures of the settings script. *)
Inductive action : Type :=
| detect_action              (* the callback of Detect Available Doctypes *)
| test_connection_action     (* the callback of Test Connection *)
| add_all_action (unconfigured : list AvailableDoctype).
                             (* function () { add_unconfigured_doctypes(frm, unconfigured);
                                              dialog.hide(); } *)

(** The dialog of available doctypes: one HTML field and, at most, a primary
    action ([null] is [None]). *)
Record ListDialog : Type := {
  list_title : string;
  list_fieldtype : string;
  list_fieldname : string;
  list_html : string;
  list_primary_action_label : option string;
  list_primary_action : option action
}.

Inductive event : Type :=
| msgprint (title indicator : string) (message : value)
| show_alert (message indicator : string) (seconds : Z)
| list_dialog_show (d : ListDialog)
| list_dialog_hide
| refresh_field (fieldname : string).

(** The settings form: the rows of [supported_doctypes], the custom buttons
    and what has been shown. *)
Record Settings : Type := {
  supported_doctypes : list Row;
  settings_buttons : list (string * action);
  shown : list event
}.

(** The three server methods the settings script calls. *)
Record SettingsServer : Type := {
  get_available_doctypes_for_site : option (list AvailableDoctype);
  test_resend_connection : value;
  get_doctype_defaults : value -> value
}.

(** The one-character string of a double quote (character 34). *)
Definition quote : string := String (Ascii.ascii_of_nat 34) EmptyString.

Section Script.
Variable __ : string -> string.
(** [__] with replacement arguments, [__(text, [args])]. *)
Variable __with : string -> list value -> string.

Local Infix "+++" := String.append (at level 60, right associativity).

Definition say (e : event) (frm : Settings) : Settings :=
  {| supported_doctypes := supported_doctypes frm;
     settings_buttons := settings_buttons frm;
     shown := shown frm ++ [e] |}.

Definition add_settings_button (l : string) (a : action) (frm : Settings) : Settings :=
  {| supported_doctypes := supported_doctypes frm;
     settings_buttons := settings_buttons frm ++ [(l, a)];
     shown := shown frm |}.

(** [frm.add_child("supported_doctypes")] followed by the writes to the new
    row: the row goes after the others. *)
Definition add_child (row : Row) (frm : Settings) : Settings :=
  {| supported_doctypes := supported_doctypes frm ++ [row];
     settings_buttons := settings_buttons frm;
     shown := shown frm |}.

(** The row [add_unconfigured_doctypes] writes for one doctype;
    [print_format] is as [add_child] left it. *)
Definition unconfigured_row (dt : AvailableDoctype) : Row :=
  {| doctype_name := str (doctype dt);
     print_format := undefined;
     enabled := number 1;
     recipient_field := js_or (default_recipient_field dt) (str EmptyString);
     recipient_doctype := js_or (default_recipient_doctype dt) (str EmptyString);
     source_app := js_or (str (app dt)) (str EmptyString);
     require_submit := number 1 |}.

Definition add_unconfigured_doctypes (doctypes : list AvailableDoctype)
    (frm : Settings) : Settings :=
  let frm := fold_left (fun frm dt => add_child (unconfigured_row dt) frm)
               doctypes frm in
  let frm := say (refresh_field "supported_doctypes") frm in
  say (show_alert
         (__with "{0} doctypes added to configuration"
            [number (Z.of_nat (length doctypes))])
         "green" 5) frm.

Definition status_pill (dt : AvailableDoctype) : string :=
  if truthy (is_configured dt)
  then "<span class=" +++ quote +++ "indicator-pill green" +++ quote +++ ">"
       +++ __ "Configured" +++ "</span>"
  else "<span class=" +++ quote +++ "indicator-pill gray" +++ quote +++ ">"
       +++ __ "Not Configured" +++ "</span>".

Definition table_row (dt : AvailableDoctype) : string :=
  "<tr>" +++
  "<td><strong>" +++
  doctype dt +++
  "</strong></td>" +++
  "<td>" +++
  app dt +++
  "</td>" +++
  "<td>" +++
  category dt +++
  "</td>" +++
  "<td>" +++
  status_pill dt +++
  "</td>" +++
  "</tr>".

Definition table_head : string :=
  let html := "<div class=" +++ quote +++ "available-doctypes-list" +++ quote +++ ">" in
  let html := html +++
    ("<p>" +++
     __ "The following doctypes are available for email configuration based on installed apps:" +++
     "</p>") in
  let html := html +++ "<table class='table table-bordered'>" in
  let html := html +++
    ("<thead><tr><th>" +++
     __ "DocType" +++
     "</th><th>" +++
     __ "App" +++
     "</th><th>" +++
     __ "Category" +++
     "</th><th>" +++
     __ "Status" +++
     "</th></tr></thead>") in
  html +++ "<tbody>".

Definition unconfigured_of (doctypes : list AvailableDoctype) : list AvailableDoctype :=
  filter (fun dt => negb (truthy (is_configured dt))) doctypes.

Definition available_doctypes_html (doctypes : list AvailableDoctype) : string :=
  let html := table_head in
  let html := fold_left (fun html dt => html +++ table_row dt) doctypes html in
  let html := html +++ "</tbody></table>" in
  let unconfigured := unconfigured_of doctypes in
  let html :=
    if (0 <? length unconfigured)%nat then
      html +++
      ("<p class='text-muted'>" +++
       __ "Click 'Add All Unconfigured' to add all unconfigured doctypes to the list." +++
       "</p>")
    else html in
  html +++ "</div>".

Definition show_available_doctypes_dialog (doctypes : list AvailableDoctype)
    (frm : Settings) : Settings :=
  let html := available_doctypes_html doctypes in
  let unconfigured := unconfigured_of doctypes in
  let dialog :=
    {| list_title := __ "Available Doctypes";
       list_fieldtype := "HTML";
       list_fieldname := "doctype_list";
       list_html := html;
       list_primary_action_label :=
         if (0 <? length unconfigured)%nat
         then Some (__ "Add All Unconfigured") else None;
       list_primary_action :=
         if (0 <? length unconfigured)%nat
         then Some (add_all_action unconfigured) else None |} in
  say (list_dialog_show dialog) frm.

(** The callback of Detect Available Doctypes; an array, even an empty one,
    is truthy. *)
Definition on_detect (message : option (list AvailableDoctype))
    (frm : Settings) : Settings :=
  match message with
  | Some doctypes => show_available_doctypes_dialog doctypes frm
  | None => frm
  end.

(** The callback of Test Connection. *)
Definition on_test_connection (message : value) (frm : Settings) : Settings :=
  if truthy message && truthy (get_prop message "success") then
    say (msgprint (__ "Connection Successful") "green"
           (str (__ "Resend API connection is working correctly."))) frm
  else
    say (msgprint (__ "Connection Failed") "red"
           (if truthy message then get_prop message "message"
            else str (__ "Failed to connect to Resend API."))) frm.

(** The [refresh] hook of Email Service Settings. *)
Definition refresh (frm : Settings) : Settings :=
  let frm := add_settings_button (__ "Detect Available Doctypes") detect_action frm in
  add_settings_button (__ "Test Connection") test_connection_action frm.

(** Running a closure of the settings script against a server. *)
Definition run_action (server : SettingsServer) (a : action)
    (frm : Settings) : Settings :=
  match a with
  | detect_action => on_detect (get_available_doctypes_for_site server) frm
  | test_connection_action => on_test_connection (test_resend_connection server) frm
  | add_all_action unconfigured =>
      say list_dialog_hide (add_unconfigured_doctypes unconfigured frm)
  end.

End Script.

(** [frappe.model.set_value(cdt, cdn, fieldname, value)] on the three fields
    the script writes. *)
Definition set_recipient_field (v : value) (row : Row) : Row :=
  {| doctype_name := doctype_name row; print_format := print_format row;
     enabled := enabled row; recipient_field := v;
     recipient_doctype := recipient_doctype row; source_app := source_app row;
     require_submit := require_submit row |}.

Definition set_recipient_doctype (v : value) (row : Row) : Row :=
  {| doctype_name := doctype_name row; print_format := print_format row;
     enabled := enabled row; recipient_field := recipient_field row;
     recipient_doctype := v; source_app := source_app row;
     require_submit := require_submit row |}.

Definition set_source_app (v : value) (row : Row) : Row :=
  {| doctype_name := doctype_name row; print_format := print_format row;
     enabled := enabled row; recipient_field := recipient_field row;
     recipient_doctype := recipient_doctype row; source_app := v;
     require_submit := require_submit row |}.

(** The operator's edit of [doctype_name] in the grid. *)
Definition set_doctype_name (v : value) (row : Row) : Row :=
  {| doctype_name := v; print_format := print_format row;
     enabled := enabled row; recipient_field := recipient_field row;
     recipient_doctype := recipient_doctype row; source_app := source_app row;
     require_submit := require_submit row |}.

(** The [doctype_name] handler of Email Doctype Configuration, on the row
    [locals[cdt][cdn]]. *)
Definition on_doctype_name (server : SettingsServer) (row : Row) : Row :=
  if negb (truthy (doctype_name row)) then row
  else
    let message := get_doctype_defaults server (doctype_name row) in
    if truthy message then
      let row := set_recipient_field
                   (js_or (get_prop message "recipient_field") (str EmptyString)) row in
      let row := set_recipient_doctype
                   (js_or (get_prop message "recipient_doctype") (str EmptyString)) row in
      set_source_app (js_or (get_prop message "source_app") (str EmptyString)) row
    else row.

(** Changing the doctype of a row: the edit, then the handler. *)
Definition change_doctype (server : SettingsServer) (v : value) (row : Row) : Row :=
  on_doctype_name server (set_doctype_name v row).

End EmailServiceSettings.

(** * Observations, and the words of the spec *)

(** The spec's [hasSuccessfulSend]: at least one send record with status
    Success, medium Email and direction Sent for the pair. *)
Definition spec_hasSuccessfulSend (cs : list Communication)
    (documentType documentId : string) : bool :=
  existsb (fun c =>
             (reference_doctype c =? documentType)
             && (reference_name c =? documentId)
             && (communication_medium c =? "Email")
             && (sent_or_received c =? "Sent")
             && match status c with Success => true | Failed => false end) cs.

(** The spec's seven document types: quotations, sales orders, payment
    entries, purchase orders, payment requests, invoices, delivery notes. *)
Definition spec_document_types : list string :=
  [ "Quotation"; "Sales Order"; "Payment Entry"; "Purchase Order";
    "Payment Request"; "Sales Invoice"; "Delivery Note" ].

(** A send record of the pair, whatever its status. *)
Definition sent_record_of (dt docname : string) (c : Communication) : Prop :=
  reference_doctype c = dt /\ reference_name c = docname /\
  communication_medium c = "Email" /\ sent_or_received c = "Sent".

Definition buttons (w : World) : list (string * handler) := custom_buttons (frm w).

Definition with_buttons (w : World) (bs : list (string * handler)) : World :=
  {| backend := backend w;
     frm := {| doctype := doctype (frm w); doc := doc (frm w); custom_buttons := bs |};
     ui := ui w |}.

(** The same desk with another send history. *)
Definition with_communications (w : World) (cs : list Communication) : World :=
  {| backend := {| api_check_doctype_email_enabled :=
                     api_check_doctype_email_enabled (backend w);
                   api_get_document_recipient :=
                     api_get_document_recipient (backend w);
                   api_send_document_email := api_send_document_email (backend w);
                   communications := cs |};
     frm := frm w; ui := ui w |}.

(** The replies the three server methods give in a world. *)
Definition enabled_reply (w : World) : value :=
  api_check_doctype_email_enabled (backend w) (doctype (frm w)).

Definition recipient_reply (w : World) : value :=
  api_get_document_recipient (backend w) (doctype (frm w)) (name (doc (frm w))).

Definition send_reply (w : World) (v : Values) : value :=
  fst (api_send_document_email (backend w) (doctype (frm w)) (name (doc (frm w))) v
         (communications (backend w))).

(** The reply of [emails.api.check_doctype_email_enabled] passes the test
    [r.message && r.message.enabled]. *)
Definition reports_enabled (w : World) : bool :=
  truthy (enabled_reply w) && truthy (get_prop (enabled_reply w) "enabled").

Definition without (l : string) (bs : list (string * handler)) :=
  filter (fun b : string * handler => negb (fst b =? l)) bs.

(** The pre-filled recipient of a send dialog. *)
Definition prefill (d : Dialog) : value :=
  match find (fun f => fieldname f =? "to_email") (fields d) with
  | Some f => default f
  | None => undefined
  end.

(** What may happen to a form between two runs of a script: the server moves
    on (sends get recorded, settings change) and the document is submitted,
    cancelled or renamed; the doctype of the form and its buttons stay. *)
Definition drift (w w' : World) : Prop :=
  doctype (frm w') = doctype (frm w) /\ buttons w' = buttons w.

Section Observations.
Variable __ : string -> string.

Definition is_send_label (l : string) : bool :=
  (l =? __ "Send Email") || (l =? __ "Resend Email").

Definition send_buttons (w : World) : list (string * handler) :=
  filter (fun b => is_send_label (fst b)) (buttons w).

(** The label the send/resend script computes from the count. *)
Definition button_label (w : World) : string :=
  if eval SendEmailButton.check_email_sent w
  then __ "Resend Email" else __ "Send Email".

(** The buttons left once both send labels have been removed. *)
Definition cleared (w : World) : list (string * handler) :=
  without (__ "Resend Email") (without (__ "Send Email") (buttons w)).

(** The three guards of the send/resend script. *)
Definition eligible (w : World) : bool :=
  (docstatus (doc (frm w)) =? 1)%Z
  && includes SendEmailButton.SUPPORTED_DOCTYPES (doctype (frm w))
  && reports_enabled w.

(** The send dialog with a given pre-filled recipient. *)
Definition send_dialog (default_email : value) : Dialog :=
  {| title := __ "Send Email via Resend";
     fields :=
       [ {| fieldname := "to_email"; fieldtype := "Data";
            label := __ "Recipient Email"; reqd := number 1;
            default := default_email; options := str "Email" |};
         {| fieldname := "cc"; fieldtype := "Data";
            label := __ "CC"; reqd := undefined;
            default := undefined; options := str "Email" |};
         {| fieldname := "custom_message"; fieldtype := "Small Text";
            label := __ "Additional Message (Optional)"; reqd := undefined;
            default := undefined; options := undefined |} ];
     primary_action_label := __ "Send";
     primary_action := send_handler |}.

(** The worlds a form goes through from [w0]: any number of runs of the
    set-up of the send/resend script, with anything in between that leaves
    the buttons alone. *)
Inductive refreshed (w0 : World) : World -> Prop :=
| refreshed_start : refreshed w0 w0
| refreshed_setup (w : World) :
    refreshed w0 w ->
    refreshed w0 (exec (SendEmailButton.setup_send_email_button __) w)
| refreshed_drift (w w' : World) :
    refreshed w0 w -> drift w w' -> refreshed w0 w'.

End Observations.

(** ** Further observations *)

(** What a computation adds to what is shown. *)
Definition new_events {A : Type} (m : Desk A) (w : World) : list ui_event :=
  skipn (length (ui w)) (ui (exec m w)).

(** The reply of the send passes the test [r.message && r.message.success]. *)
Definition send_succeeded (w : World) (v : Values) : bool :=
  truthy (send_reply w v) && truthy (get_prop (send_reply w v) "success").

(** The buttons of the form that do not carry a send label. *)
Definition other_buttons (__ : string -> string) (w : World)
    : list (string * handler) :=
  filter (fun b => negb (is_send_label __ (fst b))) (buttons w).

(** The settings form before anything happened to it. *)
Definition settings_with (rows : list EmailServiceSettings.Row)
    : EmailServiceSettings.Settings :=
  {| EmailServiceSettings.supported_doctypes := rows;
     EmailServiceSettings.settings_buttons := [];
     EmailServiceSettings.shown := [] |}.

(** A value a row field may hold after the script wrote it: a truthy value
    or the empty string, never [undefined], [null] or another falsy value. *)
Definition filled (v : value) : Prop := truthy v = true \/ v = str EmptyString.

(** The Communication table the server leaves after a send. *)
Definition send_log (w : World) (v : Values) : list Communication :=
  snd (api_send_document_email (backend w) (doctype (frm w)) (name (doc (frm w))) v
         (communications (backend w))).

(** The recipient the send dialog suggests. *)
Definition suggested (w : World) : value :=
  if truthy (recipient_reply w) then get_prop (recipient_reply w) "email"
  else str EmptyString.

(** The dialog shown last. *)
Fixpoint last_dialog (es : list ui_event) : option Dialog :=
  match es with
  | [] => None
  | e :: es' =>
      match last_dialog es' with
      | Some d => Some d
      | None => match e with dialog_show d => Some d | _ => None end
      end
  end.

Section Operator.
Variable __ : string -> string.

(** The operator clicks the custom button with a label: its closure runs
    (the closures of buttons take no values). *)
Definition click (l : string) (values : Values) : Desk unit :=
  f <- get_frm ;;
  match find (fun b => fst b =? l) (custom_buttons f) with
  | Some b => SendEmailButton.run_handler __ (snd b) values
  | None => ret tt
  end.

(** The operator confirms the dialog shown last with the values entered: its
    primary action runs on them. *)
Definition confirm_dialog (values : Values) : Desk unit :=
  fun w =>
    match last_dialog (ui w) with
    | Some d => SendEmailButton.run_handler __ (primary_action d) values w
    | None => (tt, w)
    end.

(** What the script shows for the reply of a send. *)
Definition outcome (w : World) (v : Values) : list ui_event :=
  if send_succeeded w v
  then [frappe_show_alert (__ "Email sent successfully") "green"; frm_reload_doc]
  else [frappe_msgprint (__ "Email Failed")
          (if truthy (send_reply w v) then get_prop (send_reply w v) "message"
           else str (__ "Unknown error")) "red"].

End Operator.

(** The texts of a list, one after the other. *)
Definition flat (l : list string) : string :=
  fold_right String.append EmptyString l.

(** * Sample desks *)

(** [__] when no translation is loaded. *)
Definition untranslated (s : string) : string := s.

(** A server that has every doctype enabled, suggests one recipient, and on a
    send answers with the given reply and logs a record with the given
    status. *)
Definition sample_backend (reply : value) (st : SendStatus)
    (cs : list Communication) : Backend :=
  {| api_check_doctype_email_enabled := fun _ => object [("enabled", boolean true)];
     api_get_document_recipient :=
       fun _ _ => object [("email", str "buyer@example.com")];
     api_send_document_email :=
       fun dt docname _ log =>
         (reply, (log ++ [ {| reference_doctype := dt; reference_name := docname;
                              communication_medium := "Email";
                              sent_or_received := "Sent"; status := st |} ])%list);
     communications := cs |}.

Definition sample_form (dt docname : string) (ds : Z) : Form :=
  {| doctype := dt; doc := {| name := docname; docstatus := ds |};
     custom_buttons := [] |}.

Definition sample_world (dt docname : string) (ds : Z)
    (cs : list Communication) : World :=
  {| backend := sample_backend (object [("success", boolean true)]) Success cs;
     frm := sample_form dt docname ds;
     ui := [] |}.

Definition record_of (dt docname : string) (st : SendStatus) : Communication :=
  {| reference_doctype := dt; reference_name := docname;
     communication_medium := "Email"; sent_or_received := "Sent"; status := st |}.

(** A server that reports every doctype as not enabled and has no answer to
    the other two methods. *)
Definition quiet_backend : Backend :=
  {| api_check_doctype_email_enabled := fun _ => object [("enabled", boolean false)];
     api_get_document_recipient := fun _ _ => null;
     api_send_document_email := fun _ _ _ log => (null, log);
     communications := [] |}.

Definition quiet_world (dt docname : string) (ds : Z) : World :=
  {| backend := quiet_backend; frm := sample_form dt docname ds; ui := [] |}.

(** A server whose delivery fails with a message. *)
Definition failing_world (dt docname msg : string) : World :=
  {| backend := sample_backend
                  (object [("success", boolean false); ("message", str msg)])
                  Failed [];
     frm := sample_form dt docname 1;
     ui := [] |}.

Definition sample_values : Values :=
  {| to_email := str "buyer@example.com"; cc := undefined;
     custom_message := undefined |}.

(** A fresh row of the settings table and a stock of print formats. *)
Definition fresh_row : EmailServiceSettings.Row :=
  {| EmailServiceSettings.doctype_name := undefined;
     EmailServiceSettings.print_format := undefined;
     EmailServiceSettings.enabled := number 1;
     EmailServiceSettings.recipient_field := str "";
     EmailServiceSettings.recipient_doctype := str "";
     EmailServiceSettings.source_app := str "";
     EmailServiceSettings.require_submit := number 1 |}.

Definition row_for (dt : string) : EmailServiceSettings.Row :=
  {| EmailServiceSettings.doctype_name := str dt;
     EmailServiceSettings.print_format := undefined;
     EmailServiceSettings.enabled := number 1;
     EmailServiceSettings.recipient_field := str "";
     EmailServiceSettings.recipient_doctype := str "";
     EmailServiceSettings.source_app := str "";
     EmailServiceSettings.require_submit := number 1 |}.

Definition sample_formats : list EmailServiceSettings.PrintFormat :=
  [ {| EmailServiceSettings.pf_name := "Quotation Letter";
       EmailServiceSettings.doc_type := "Quotation";
       EmailServiceSettings.disabled := 0 |};
    {| EmailServiceSettings.pf_name := "Quotation Draft";
       EmailServiceSettings.doc_type := "Quotation";
       EmailServiceSettings.disabled := 1 |};
    {| EmailServiceSettings.pf_name := "Order Sheet";
       EmailServiceSettings.doc_type := "Sales Order";
       EmailServiceSettings.disabled := 0 |} ].

(** Two doctypes as the site may report them, one of them configured. *)
Definition sample_available : list EmailServiceSettings.AvailableDoctype :=
  [ {| EmailServiceSettings.doctype := "Quotation";
       EmailServiceSettings.app := "erpnext";
       EmailServiceSettings.category := "Selling";
       EmailServiceSettings.is_configured := boolean true;
       EmailServiceSettings.default_recipient_field := str "contact_email";
       EmailServiceSettings.default_recipient_doctype := null |};
    {| EmailServiceSettings.doctype := "Sales Order";
       EmailServiceSettings.app := "erpnext";
       EmailServiceSettings.category := "Selling";
       EmailServiceSettings.is_configured := boolean false;
       EmailServiceSettings.default_recipient_field := str "customer";
       EmailServiceSettings.default_recipient_doctype := str "Customer" |} ].

Definition sample_settings_server : EmailServiceSettings.SettingsServer :=
  {| EmailServiceSettings.get_available_doctypes_for_site := Some sample_available;
     EmailServiceSettings.test_resend_connection :=
       object [("success", boolean false); ("message", str "Invalid API key")];
     EmailServiceSettings.get_doctype_defaults :=
       fun _ => object [("recipient_field", str "customer");
                        ("recipient_doctype", str "Customer")] |}.

(** [__] with arguments, when no translation is loaded: the text is kept and
    the arguments are not filled in. *)
Definition untranslated_with (s : string) (args : list value) : string := s.

(** * Properties *)

Lemma with_buttons_same (w : World) : with_buttons w (buttons w) = w.
Proof. destruct w as [b [dt d bs] u]; reflexivity. Qed.

Lemma with_buttons_twice (w : World) (a b : list (string * handler)) :
  with_buttons (with_buttons w a) b = with_buttons w b.
Proof. reflexivity. Qed.

Lemma positive_length_iff {A : Type} (l : list A) :
  (0 <? Z.of_nat (length l))%Z = true <-> exists x, In x l.
Proof.
  destruct l as [|a l]; simpl.
  - split; [discriminate | intros [x []]].
  - split; [intros _; exists a; now left | intros _; apply Z.ltb_lt; lia].
Qed.

Section SendEmailButtonFacts.
Variable __ : string -> string.

Local Abbreviation setup := (SendEmailButton.setup_send_email_button __).
Local Abbreviation prompt := (SendEmailButton.prompt_send_email_after_submit __).
Local Abbreviation supported := SendEmailButton.SUPPORTED_DOCTYPES.
Local Abbreviation check := SendEmailButton.check_email_sent.

Lemma matches_sent_filters (f : Form) (c : Communication) :
  matches (SendEmailButton.sent_filters f) c = true <->
  sent_record_of (doctype f) (name (doc f)) c.
Proof.
  unfold matches, SendEmailButton.sent_filters, sent_record_of; simpl.
  rewrite !andb_true_iff, !String.eqb_eq. tauto.
Qed.

(** What one run of the set-up does to the world, case by case. *)
Lemma setup_cases (w : World) :
  exec setup w =
  if negb (docstatus (doc (frm w)) =? 1)%Z then w
  else if negb (includes supported (doctype (frm w))) then w
  else with_buttons w
         (cleared __ w ++
          if reports_enabled w then [(button_label __ w, show_dialog_handler)] else []).
Proof.
  unfold exec, SendEmailButton.setup_send_email_button, bind, get_frm.
  destruct (negb (docstatus (doc (frm w)) =? 1)%Z); [reflexivity|].
  destruct (negb (includes supported (doctype (frm w)))); [reflexivity|].
  unfold reports_enabled, enabled_reply, button_label, eval,
    SendEmailButton.check_email_sent, bind, get_frm, call_get_count, ret; simpl.
  destruct (truthy _ && truthy _); simpl.
  - reflexivity.
  - unfold ret, with_buttons, cleared, without, buttons; simpl.
    now rewrite app_nil_r.
Qed.

Lemma prompt_cases (w : World) :
  exec prompt w =
  if negb (includes supported (doctype (frm w))) then w
  else if reports_enabled w then
         {| backend := backend w; frm := frm w;
            ui := ui w ++ [frappe_confirm
                             (__ "Would you like to send an email to the customer?")
                             show_dialog_handler noop_handler] |}
       else w.
Proof.
  unfold exec, SendEmailButton.prompt_send_email_after_submit, bind, get_frm.
  destruct (negb (includes supported (doctype (frm w)))); [reflexivity|].
  unfold reports_enabled, enabled_reply, call_check_doctype_email_enabled; simpl.
  destruct (truthy _ && truthy _); reflexivity.
Qed.

Lemma setup_eligible (w : World) :
  eligible w = true ->
  exec setup w =
  with_buttons w (cleared __ w ++ [(button_label __ w, show_dialog_handler)]).
Proof.
  unfold eligible. rewrite !andb_true_iff. intros [[Hs Hd] He].
  rewrite setup_cases, Hs, Hd, He. reflexivity.
Qed.

Lemma check_email_sent_iff (w : World) :
  eval check w = true <->
  exists c, In c (communications (backend w)) /\
            sent_record_of (doctype (frm w)) (name (doc (frm w))) c.
Proof.
  unfold eval, SendEmailButton.check_email_sent, bind, get_frm, call_get_count,
    ret, get_count; simpl.
  rewrite positive_length_iff. split.
  - intros [c Hc]. apply filter_In in Hc as [Hin Hm].
    exists c; split; [assumption | now apply matches_sent_filters].
  - intros [c [Hin Hs]]. exists c. apply filter_In.
    split; [assumption | now apply matches_sent_filters].
Qed.

End SendEmailButtonFacts.

(** The scenario of the spec: a submitted quotation with no prior record gets
    Send Email; the button opens the dialog with the suggested recipient; the
    primary action sends, the server logs the send, the form reloads; the
    next refresh shows Resend Email. *)
Example quotation_scenario :
  let w0 := sample_world "Quotation" "QTN-001" 1 [] in
  let w1 := exec (SendEmailButton.on_refresh untranslated) w0 in
  let w2 := exec (SendEmailButton.run_handler untranslated
                    show_dialog_handler sample_values) w1 in
  let w3 := exec (SendEmailButton.run_handler untranslated
                    send_handler sample_values) w2 in
  let w4 := exec (SendEmailButton.on_refresh untranslated) w3 in
  buttons w1 = [("Send Email", show_dialog_handler)]
  /\ ui w2 = [dialog_show (send_dialog untranslated (str "buyer@example.com"))]
  /\ communications (backend w3) = [record_of "Quotation" "QTN-001" Success]
  /\ ui w3 = ui w2 ++ [dialog_hide;
                       frappe_show_alert "Email sent successfully" "green";
                       frm_reload_doc]
  /\ buttons w4 = [("Resend Email", show_dialog_handler)].
Proof. repeat split. Qed.

Section SendHistory.
Variable __ : string -> string.

Local Abbreviation setup := (SendEmailButton.setup_send_email_button __).
Local Abbreviation check := SendEmailButton.check_email_sent.

Lemma successful_send_is_sent_record (cs : list Communication) (dt docname : string) :
  spec_hasSuccessfulSend cs dt docname = true ->
  exists c, In c cs /\ sent_record_of dt docname c /\ status c = Success.
Proof.
  unfold spec_hasSuccessfulSend. rewrite existsb_exists.
  intros [c [Hin Hc]]. exists c. rewrite !andb_true_iff, !String.eqb_eq in Hc.
  destruct Hc as [[[[H1 H2] H3] H4] H5].
  repeat split; try assumption. now destruct (status c).
Qed.

(** C1, as amended: the already-sent signal is true exactly when the
    Communication table holds a record of the pair with medium Email and
    direction Sent, whatever the status of that record (so a successful send
    suffices, and no record of the pair gives false); reading it changes
    nothing, and for an eligible document it is the signal that picks the
    label of the one button the set-up adds. *)
Theorem already_sent_iff_sent_record (w : World) :
  (eval check w = true <->
   exists c, In c (communications (backend w)) /\
             sent_record_of (doctype (frm w)) (name (doc (frm w))) c)
  /\ (spec_hasSuccessfulSend (communications (backend w))
        (doctype (frm w)) (name (doc (frm w))) = true ->
      eval check w = true)
  /\ exec check w = w
  /\ (eligible w = true ->
      buttons (exec setup w) =
      cleared __ w ++
      [(if eval check w then __ "Resend Email" else __ "Send Email",
        show_dialog_handler)]).
Proof.
  split; [apply check_email_sent_iff | split; [|split; [reflexivity|]]].
  - intros Hs. apply check_email_sent_iff.
    destruct (successful_send_is_sent_record _ _ _ Hs) as [c [Hin [Hc _]]].
    now exists c.
  - intros He. rewrite (setup_eligible __ w He). reflexivity.
Qed.

(** C3: on a document that is not submitted ([docstatus] other than 1) the
    set-up of either script returns at once, whatever the server would
    answer about the doctype: the document is not eligible, no button is set
    up and the world is as before. *)
Theorem unsubmitted_gets_no_button (w : World) :
  docstatus (doc (frm w)) <> 1%Z ->
  eligible w = false
  /\ exec setup w = w
  /\ exec (SendOnlyButton.setup_send_email_button __) w = w
  /\ exec (SendEmailButton.on_refresh __) w = w
  /\ exec (SendOnlyButton.on_refresh __) w = w.
Proof.
  intros Hd. apply Z.eqb_neq in Hd.
  assert (H1 : exec setup w = w) by (rewrite setup_cases, Hd; reflexivity).
  assert (H2 : exec (SendOnlyButton.setup_send_email_button __) w = w).
  { unfold exec, SendOnlyButton.setup_send_email_button, bind, get_frm.
    rewrite Hd. reflexivity. }
  split; [|split; [|split; [|split]]].
  - unfold eligible. now rewrite Hd.
  - exact H1.
  - exact H2.
  - unfold SendEmailButton.on_refresh, exec, bind, get_frm.
    destruct (includes _ _); [exact H1 | reflexivity].
  - unfold SendOnlyButton.on_refresh, exec, bind, get_frm.
    destruct (includes _ _); [exact H2 | reflexivity].
Qed.

End SendHistory.

(** C1, as stated, fails: with a single Failed record of the pair in the
    table there is no successful send, yet the signal is true and the button
    reads Resend Email. *)
Lemma failed_record_alone_reads_as_sent :
  communications (backend (sample_world "Quotation" "QTN-001" 1
                             [record_of "Quotation" "QTN-001" Failed]))
  = [record_of "Quotation" "QTN-001" Failed]
  /\ status (record_of "Quotation" "QTN-001" Failed) = Failed
  /\ spec_hasSuccessfulSend [record_of "Quotation" "QTN-001" Failed]
       "Quotation" "QTN-001" = false
  /\ eval SendEmailButton.check_email_sent
       (sample_world "Quotation" "QTN-001" 1
          [record_of "Quotation" "QTN-001" Failed]) = true
  /\ buttons (exec (SendEmailButton.setup_send_email_button untranslated)
                (sample_world "Quotation" "QTN-001" 1
                   [record_of "Quotation" "QTN-001" Failed]))
     = [("Resend Email", show_dialog_handler)].
Proof. repeat split. Qed.

Lemma already_sent_iff_sent_record_witness :
  eligible (sample_world "Quotation" "QTN-001" 1 []) = true
  /\ buttons (exec (SendEmailButton.setup_send_email_button untranslated)
                (sample_world "Quotation" "QTN-001" 1 []))
     = [("Send Email", show_dialog_handler)].
Proof.
  split; [reflexivity|].
  exact (proj2 (proj2 (proj2 (already_sent_iff_sent_record untranslated
                                (sample_world "Quotation" "QTN-001" 1 []))))
           eq_refl).
Defined.

Lemma unsubmitted_gets_no_button_witness :
  exec (SendEmailButton.setup_send_email_button untranslated)
    (sample_world "Quotation" "QTN-002" 0 []) =
  sample_world "Quotation" "QTN-002" 0 [].
Proof.
  refine (proj1 (proj2 (unsubmitted_gets_no_button untranslated
                          (sample_world "Quotation" "QTN-002" 0 []) _))).
  simpl. discriminate.
Defined.

Section SupportedDoctypes.
Variable __ : string -> string.

Lemma includes_In (l : list string) (x : string) :
  includes l x = true <-> In x l.
Proof.
  unfold includes. rewrite existsb_exists. split.
  - intros [y [Hin Heq]]. apply String.eqb_eq in Heq. now subst.
  - intros Hin. exists x. split; [assumption | apply String.eqb_refl].
Qed.

Lemma send_only_setup_cases (w : World) :
  exec (SendOnlyButton.setup_send_email_button __) w =
  if negb (docstatus (doc (frm w)) =? 1)%Z then w
  else if negb (includes SendOnlyButton.SUPPORTED_DOCTYPES (doctype (frm w))) then w
  else if reports_enabled w
       then with_buttons w (buttons w ++ [(__ "Send Email", show_dialog_handler)])
       else w.
Proof.
  unfold exec, SendOnlyButton.setup_send_email_button, bind, get_frm.
  destruct (negb (docstatus (doc (frm w)) =? 1)%Z); [reflexivity|].
  destruct (negb (includes _ (doctype (frm w)))); [reflexivity|].
  unfold reports_enabled, enabled_reply, call_check_doctype_email_enabled; simpl.
  destruct (truthy _ && truthy _); reflexivity.
Qed.

Lemma unsupported_untouched (w : World) :
  includes SendEmailButton.SUPPORTED_DOCTYPES (doctype (frm w)) = false ->
  exec (SendEmailButton.setup_send_email_button __) w = w
  /\ exec (SendEmailButton.prompt_send_email_after_submit __) w = w
  /\ exec (SendEmailButton.on_refresh __) w = w
  /\ exec (SendEmailButton.on_after_submit __) w = w.
Proof.
  intros Hn. split; [|split; [|split]].
  - rewrite setup_cases, Hn. now destruct (negb _).
  - now rewrite prompt_cases, Hn.
  - unfold SendEmailButton.on_refresh, exec, bind, get_frm. now rewrite Hn.
  - unfold SendEmailButton.on_after_submit, exec, bind, get_frm. now rewrite Hn.
Qed.

Lemma send_only_unsupported_untouched (w : World) :
  includes SendOnlyButton.SUPPORTED_DOCTYPES (doctype (frm w)) = false ->
  exec (SendOnlyButton.setup_send_email_button __) w = w
  /\ exec (SendOnlyButton.on_refresh __) w = w.
Proof.
  intros Hn. split.
  - rewrite send_only_setup_cases, Hn. now destruct (negb _).
  - unfold SendOnlyButton.on_refresh, exec, bind, get_frm. now rewrite Hn.
Qed.

(** C2, as amended: each script offers a send action only for the doctypes
    of its own fixed list.  The list of the send-only script is the spec's
    seven; the list of the send/resend script is five of them, without
    Sales Invoice and Delivery Note.  On a form whose doctype is not in a
    script's list that script does nothing at all, and on a submitted, enabled
    document of a listed doctype it adds its button. *)
Theorem send_actions_follow_the_lists :
  (forall dt, includes SendOnlyButton.SUPPORTED_DOCTYPES dt = true <->
              In dt spec_document_types)
  /\ (forall dt, includes SendEmailButton.SUPPORTED_DOCTYPES dt = true <->
                 In dt spec_document_types
                 /\ dt <> "Sales Invoice" /\ dt <> "Delivery Note")
  /\ (forall w,
        includes SendEmailButton.SUPPORTED_DOCTYPES (doctype (frm w)) = false ->
        exec (SendEmailButton.setup_send_email_button __) w = w
        /\ exec (SendEmailButton.prompt_send_email_after_submit __) w = w
        /\ exec (SendEmailButton.on_refresh __) w = w
        /\ exec (SendEmailButton.on_after_submit __) w = w)
  /\ (forall w,
        includes SendOnlyButton.SUPPORTED_DOCTYPES (doctype (frm w)) = false ->
        exec (SendOnlyButton.setup_send_email_button __) w = w
        /\ exec (SendOnlyButton.on_refresh __) w = w)
  /\ (forall w,
        docstatus (doc (frm w)) = 1%Z -> reports_enabled w = true ->
        (includes SendEmailButton.SUPPORTED_DOCTYPES (doctype (frm w)) = true ->
         buttons (exec (SendEmailButton.setup_send_email_button __) w) =
         cleared __ w ++ [(button_label __ w, show_dialog_handler)])
        /\ (includes SendOnlyButton.SUPPORTED_DOCTYPES (doctype (frm w)) = true ->
            buttons (exec (SendOnlyButton.setup_send_email_button __) w) =
            buttons w ++ [(__ "Send Email", show_dialog_handler)])).
Proof.
  split; [|split; [|split; [|split]]].
  - intros dt. rewrite includes_In. simpl. tauto.
  - intros dt. rewrite includes_In. simpl. split.
    + intros H.
      repeat (destruct H as [H|H]; [subst dt; (split; [tauto | split; discriminate])|]).
      destruct H.
    + intros [H [Hi Hd]]. repeat (destruct H as [H|H]; [auto 7; try congruence|]).
      destruct H.
  - exact unsupported_untouched.
  - exact send_only_unsupported_untouched.
  - intros w Hs He. apply Z.eqb_eq in Hs. split; intros Hd.
    + rewrite setup_eligible; [reflexivity|].
      unfold eligible. now rewrite Hs, Hd, He.
    + rewrite send_only_setup_cases, Hs, Hd, He. reflexivity.
Qed.

End SupportedDoctypes.

(** C2, as stated, fails for the send/resend script: Sales Invoice is one of
    the seven, and on a submitted Sales Invoice whose doctype the server
    reports enabled the script sets up no button and shows no prompt, while
    the send-only script adds its button. *)
Lemma sales_invoice_gets_no_send_action :
  includes spec_document_types "Sales Invoice" = true
  /\ docstatus (doc (frm (sample_world "Sales Invoice" "SINV-001" 1 []))) = 1%Z
  /\ reports_enabled (sample_world "Sales Invoice" "SINV-001" 1 []) = true
  /\ includes SendEmailButton.SUPPORTED_DOCTYPES "Sales Invoice" = false
  /\ exec (SendEmailButton.setup_send_email_button untranslated)
       (sample_world "Sales Invoice" "SINV-001" 1 [])
     = sample_world "Sales Invoice" "SINV-001" 1 []
  /\ exec (SendEmailButton.prompt_send_email_after_submit untranslated)
       (sample_world "Sales Invoice" "SINV-001" 1 [])
     = sample_world "Sales Invoice" "SINV-001" 1 []
  /\ buttons (sample_world "Sales Invoice" "SINV-001" 1 []) = []
  /\ buttons (exec (SendOnlyButton.setup_send_email_button untranslated)
                (sample_world "Sales Invoice" "SINV-001" 1 []))
     = [("Send Email", show_dialog_handler)].
Proof. repeat split. Qed.

Lemma send_actions_follow_the_lists_witness :
  includes SendEmailButton.SUPPORTED_DOCTYPES
    (doctype (frm (sample_world "Customer" "CUST-001" 1 []))) = false
  /\ exec (SendEmailButton.setup_send_email_button untranslated)
       (sample_world "Customer" "CUST-001" 1 [])
     = sample_world "Customer" "CUST-001" 1 []
  /\ buttons (exec (SendOnlyButton.setup_send_email_button untranslated)
                (sample_world "Delivery Note" "DN-001" 1 []))
     = [("Send Email", show_dialog_handler)].
Proof.
  split; [reflexivity | split].
  - exact (proj1 (proj1 (proj2 (proj2 (send_actions_follow_the_lists untranslated)))
                    (sample_world "Customer" "CUST-001" 1 []) eq_refl)).
  - exact (proj2 (proj2 (proj2 (proj2 (proj2
                   (send_actions_follow_the_lists untranslated))))
                    (sample_world "Delivery Note" "DN-001" 1 []) eq_refl eq_refl)
             eq_refl).
Defined.

Section Dispatch.
Variable __ : string -> string.

Local Abbreviation setup := (SendEmailButton.setup_send_email_button __).
Local Abbreviation prompt := (SendEmailButton.prompt_send_email_after_submit __).
Local Abbreviation supported := SendEmailButton.SUPPORTED_DOCTYPES.

Lemma without_incl (l : string) (bs : list (string * handler)) :
  incl (without l bs) bs.
Proof. intros b Hb. unfold without in Hb. now apply filter_In in Hb. Qed.

Lemma cleared_incl (w : World) : incl (cleared __ w) (buttons w).
Proof.
  unfold cleared. eapply incl_tran; apply without_incl.
Qed.

Lemma cleared_as_filter (w : World) :
  cleared __ w = filter (fun b => negb (is_send_label __ (fst b))) (buttons w).
Proof.
  unfold cleared, without, is_send_label.
  induction (buttons w) as [|b bs IH]; simpl; [reflexivity|].
  destruct (fst b =? __ "Send Email"); simpl.
  - exact IH.
  - destruct (fst b =? __ "Resend Email"); simpl; now rewrite IH.
Qed.

Lemma no_send_button_in_cleared (w : World) :
  filter (fun b => is_send_label __ (fst b)) (cleared __ w) = [].
Proof.
  rewrite cleared_as_filter.
  induction (buttons w) as [|b bs IH]; simpl; [reflexivity|].
  destruct (is_send_label __ (fst b)) eqn:E; simpl; [exact IH|].
  now rewrite E.
Qed.

Lemma button_label_is_send_label (w : World) :
  is_send_label __ (button_label __ w) = true.
Proof.
  unfold is_send_label, button_label.
  destruct (eval _ w); rewrite String.eqb_refl; [apply orb_true_r | reflexivity].
Qed.

(** The send buttons after a run of the set-up that got past its two
    guards: the one it added, if it added one. *)
Lemma send_buttons_after_setup (w : World) :
  docstatus (doc (frm w)) = 1%Z ->
  includes supported (doctype (frm w)) = true ->
  send_buttons __ (exec setup w) =
  if reports_enabled w then [(button_label __ w, show_dialog_handler)] else [].
Proof.
  intros Hs Hd. apply Z.eqb_eq in Hs.
  rewrite setup_cases, Hs, Hd. simpl.
  unfold send_buttons, buttons, with_buttons. simpl.
  rewrite filter_app, no_send_button_in_cleared. simpl.
  destruct (reports_enabled w); simpl; [|reflexivity].
  now rewrite button_label_is_send_label.
Qed.

(** C5: for a document whose doctype is not supported, or whose doctype the
    server reports as not enabled, the post-submit prompt does nothing, the
    set-up adds no button, shows nothing and leaves the server untouched
    (no record is written), so a form without a send button stays without
    one; when the set-up reaches the server and is told not enabled, no send
    button is left at all. *)
Theorem ineligible_is_silent (w : World) :
  includes supported (doctype (frm w)) = false \/ reports_enabled w = false ->
  exec prompt w = w
  /\ exec (SendEmailButton.on_after_submit __) w = w
  /\ incl (buttons (exec setup w)) (buttons w)
  /\ (send_buttons __ w = [] -> send_buttons __ (exec setup w) = [])
  /\ ui (exec setup w) = ui w
  /\ backend (exec setup w) = backend w
  /\ communications (backend (exec setup w)) = communications (backend w)
  /\ (docstatus (doc (frm w)) = 1%Z ->
      includes supported (doctype (frm w)) = true ->
      send_buttons __ (exec setup w) = []).
Proof.
  intros H.
  assert (Hp : exec prompt w = w).
  { rewrite prompt_cases.
    destruct (includes supported (doctype (frm w))); simpl; [|reflexivity].
    destruct H as [H|H]; [discriminate | now rewrite H]. }
  assert (Hp' : exec prompt w = w -> exec (SendEmailButton.on_after_submit __) w = w).
  { intros E. unfold SendEmailButton.on_after_submit, exec, bind, get_frm.
    destruct (includes _ _); [exact E | reflexivity]. }
  assert (Hs : exec setup w = w \/ exec setup w = with_buttons w (cleared __ w)).
  { rewrite setup_cases.
    destruct (negb (docstatus _ =? 1)%Z); [now left|].
    destruct (includes supported (doctype (frm w))) eqn:Ei; simpl; [|now left].
    destruct H as [H|H]; [discriminate|]. rewrite H, app_nil_r. now right. }
  split; [exact Hp | split; [exact (Hp' Hp)|]].
  split; [|split; [|split; [|split; [|split]]]].
  - destruct Hs as [-> | ->]; [apply incl_refl | apply cleared_incl].
  - intros Hn. destruct Hs as [-> | ->]; [exact Hn|].
    apply no_send_button_in_cleared.
  - now destruct Hs as [-> | ->].
  - now destruct Hs as [-> | ->].
  - now destruct Hs as [-> | ->].
  - intros Hd Hi. rewrite send_buttons_after_setup by assumption.
    destruct H as [H|H]; [congruence | now rewrite H].
Qed.

Lemma send_document_email_cases (w : World) (values : Values) :
  ui (exec (SendEmailButton.send_document_email __ values) w) =
  ui w ++
  (if truthy (send_reply w values) && truthy (get_prop (send_reply w values) "success")
   then [frappe_show_alert (__ "Email sent successfully") "green"; frm_reload_doc]
   else [frappe_msgprint (__ "Email Failed")
           (if truthy (send_reply w values)
            then get_prop (send_reply w values) "message"
            else str (__ "Unknown error"))
           "red"]).
Proof.
  unfold exec, SendEmailButton.send_document_email, bind, get_frm,
    call_send_document_email, send_reply.
  destruct (api_send_document_email _ _ _ _ _) as [r cs]; simpl.
  destruct (truthy r && truthy (get_prop r "success")); simpl; [|reflexivity].
  now rewrite <- app_assoc.
Qed.

Lemma send_only_send_document_email_same (values : Values) (w : World) :
  SendOnlyButton.send_document_email __ values w =
  SendEmailButton.send_document_email __ values w.
Proof. reflexivity. Qed.

(** C4, as amended: when the reply of the send does not pass the test
    [r.message && r.message.success], the operator gets one notice titled
    Email Failed; if the reply carries a result, the notice shows the
    result's [message] as it is, and if the reply carries no result the
    notice shows the script's own text Unknown error.  Both copies of the
    script do the same. *)
Theorem failure_notice_text (w : World) (values : Values) (r : value) :
  send_reply w values = r ->
  truthy r && truthy (get_prop r "success") = false ->
  (truthy r = true ->
   ui (exec (SendEmailButton.send_document_email __ values) w) =
   ui w ++ [frappe_msgprint (__ "Email Failed") (get_prop r "message") "red"])
  /\ (truthy r = false ->
      ui (exec (SendEmailButton.send_document_email __ values) w) =
      ui w ++ [frappe_msgprint (__ "Email Failed") (str (__ "Unknown error")) "red"])
  /\ exec (SendOnlyButton.send_document_email __ values) w =
     exec (SendEmailButton.send_document_email __ values) w.
Proof.
  intros Hr Hf. rewrite send_document_email_cases, Hr, Hf.
  split; [|split]; try (intros ->); reflexivity.
Qed.

Lemma show_send_email_dialog_cases (w : World) :
  exec (SendEmailButton.show_send_email_dialog __) w =
  {| backend := backend w; frm := frm w;
     ui := ui w ++ [dialog_show
                      (send_dialog __
                         (if truthy (recipient_reply w)
                          then get_prop (recipient_reply w) "email"
                          else str ""))] |}.
Proof. reflexivity. Qed.

Lemma prefill_send_dialog (v : value) : prefill (send_dialog __ v) = v.
Proof. reflexivity. Qed.

(** C7: resolving the suggested recipient never fails the caller: the send
    dialog is shown whatever the recipient lookup answers, and the server and
    the form are as before; when the answer is no result, the dialog's
    recipient is pre-filled with the empty string.  Both copies of the script
    do the same. *)
Theorem missing_recipient_prefills_empty (w : World) :
  (exists d, exec (SendEmailButton.show_send_email_dialog __) w =
             {| backend := backend w; frm := frm w;
                ui := ui w ++ [dialog_show d] |})
  /\ (truthy (recipient_reply w) = false ->
      exec (SendEmailButton.show_send_email_dialog __) w =
      {| backend := backend w; frm := frm w;
         ui := ui w ++ [dialog_show (send_dialog __ (str ""))] |}
      /\ prefill (send_dialog __ (str "")) = str "")
  /\ exec (SendOnlyButton.show_send_email_dialog __) w =
     exec (SendEmailButton.show_send_email_dialog __) w.
Proof.
  split; [|split]; [| |reflexivity].
  - eexists. apply show_send_email_dialog_cases.
  - intros Hr. rewrite show_send_email_dialog_cases, Hr. split; reflexivity.
Qed.

End Dispatch.

Lemma ineligible_is_silent_witness :
  reports_enabled (quiet_world "Quotation" "QTN-003" 1) = false
  /\ exec (SendEmailButton.prompt_send_email_after_submit untranslated)
       (quiet_world "Quotation" "QTN-003" 1)
     = quiet_world "Quotation" "QTN-003" 1.
Proof.
  split; [reflexivity|].
  exact (proj1 (ineligible_is_silent untranslated
                  (quiet_world "Quotation" "QTN-003" 1) (or_intror eq_refl))).
Defined.

(** C4, as stated, fails: a reply without a result is a failed dispatch for
    the script, and the notice it shows carries the script's own generic
    text, not a text taken from the reply. *)
Lemma missing_result_gives_generic_text :
  send_reply (quiet_world "Quotation" "QTN-003" 1) sample_values = null
  /\ ui (exec (SendEmailButton.send_document_email untranslated sample_values)
           (quiet_world "Quotation" "QTN-003" 1))
     = [frappe_msgprint "Email Failed" (str "Unknown error") "red"].
Proof. split; reflexivity. Qed.

Lemma failure_notice_text_witness :
  ui (exec (SendEmailButton.send_document_email untranslated sample_values)
        (failing_world "Quotation" "QTN-004" "quota exceeded"))
  = [frappe_msgprint "Email Failed" (str "quota exceeded") "red"].
Proof.
  exact (proj1 (failure_notice_text untranslated
                  (failing_world "Quotation" "QTN-004" "quota exceeded")
                  sample_values
                  (object [("success", boolean false);
                           ("message", str "quota exceeded")])
                  eq_refl eq_refl) eq_refl).
Defined.

Lemma missing_recipient_prefills_empty_witness :
  truthy (recipient_reply (quiet_world "Quotation" "QTN-003" 1)) = false
  /\ ui (exec (SendEmailButton.show_send_email_dialog untranslated)
           (quiet_world "Quotation" "QTN-003" 1))
     = [dialog_show (send_dialog untranslated (str ""))].
Proof.
  split; [reflexivity|].
  exact (f_equal ui
           (proj1 (proj1 (proj2 (missing_recipient_prefills_empty untranslated
                                   (quiet_world "Quotation" "QTN-003" 1)))
                     eq_refl))).
Defined.

Section Refresh.
Variable __ : string -> string.

Local Abbreviation setup := (SendEmailButton.setup_send_email_button __).
Local Abbreviation check := SendEmailButton.check_email_sent.
Local Abbreviation supported := SendEmailButton.SUPPORTED_DOCTYPES.

Lemma filter_twice {A : Type} (f : A -> bool) (l : list A) :
  filter f (filter f l) = filter f l.
Proof.
  induction l as [|a l IH]; simpl; [reflexivity|].
  destruct (f a) eqn:E; simpl; [rewrite E, IH|]; auto.
Qed.

(** Clearing again after the set-up added its button gives the same rest. *)
Lemma cleared_after_add (w : World) (l : string) (h : handler) :
  is_send_label __ l = true ->
  cleared __ (with_buttons w (cleared __ w ++ [(l, h)])) = cleared __ w.
Proof.
  intros Hl. rewrite (cleared_as_filter __ (with_buttons _ _)).
  unfold buttons, with_buttons; simpl.
  rewrite filter_app; simpl. rewrite Hl; simpl. rewrite app_nil_r.
  rewrite cleared_as_filter. apply filter_twice.
Qed.

Lemma cleared_after_clear (w : World) :
  cleared __ (with_buttons w (cleared __ w)) = cleared __ w.
Proof.
  rewrite (cleared_as_filter __ (with_buttons _ _)).
  unfold buttons, with_buttons; simpl.
  rewrite cleared_as_filter. apply filter_twice.
Qed.

Lemma setup_twice (w : World) : exec setup (exec setup w) = exec setup w.
Proof.
  rewrite (setup_cases __ w).
  destruct (negb (docstatus (doc (frm w)) =? 1)%Z) eqn:Es.
  - now rewrite setup_cases, Es.
  - destruct (negb (includes supported (doctype (frm w)))) eqn:Ed.
    + now rewrite setup_cases, Es, Ed.
    + rewrite setup_cases. cbn [with_buttons frm doc doctype]. rewrite Es, Ed.
      change (reports_enabled (with_buttons w _)) with (reports_enabled w).
      change (button_label __ (with_buttons w _)) with (button_label __ w).
      rewrite with_buttons_twice.
      destruct (reports_enabled w).
      * rewrite cleared_after_add by apply button_label_is_send_label.
        reflexivity.
      * rewrite !app_nil_r, cleared_after_clear. reflexivity.
Qed.

Lemma setup_keeps_rest (w : World) :
  backend (exec setup w) = backend w
  /\ ui (exec setup w) = ui w
  /\ doctype (frm (exec setup w)) = doctype (frm w)
  /\ doc (frm (exec setup w)) = doc (frm w).
Proof.
  rewrite setup_cases.
  destruct (negb (docstatus _ =? 1)%Z); [now repeat split|].
  destruct (negb (includes _ _)); now repeat split.
Qed.

(** C9: the eligibility check is idempotent and free of side effects.  A run
    of the set-up reads the server and leaves it, and what is shown, as they
    were; a second run on the result changes nothing more; the guards and the
    label computed after a run are those computed before it; reading the
    already-sent signal changes nothing and gives the same answer again. *)
Theorem eligibility_check_idempotent (w : World) :
  exec setup (exec setup w) = exec setup w
  /\ backend (exec setup w) = backend w
  /\ ui (exec setup w) = ui w
  /\ eligible (exec setup w) = eligible w
  /\ button_label __ (exec setup w) = button_label __ w
  /\ exec check w = w
  /\ eval check (exec check w) = eval check w.
Proof.
  destruct (setup_keeps_rest w) as [Hb [Hu [Hdt Hdoc]]].
  split; [apply setup_twice|].
  split; [exact Hb|]. split; [exact Hu|].
  split; [|split; [|split; reflexivity]].
  - unfold eligible, reports_enabled, enabled_reply. now rewrite Hb, Hdt, Hdoc.
  - unfold button_label, eval, SendEmailButton.check_email_sent, bind, get_frm,
      call_get_count, ret, SendEmailButton.sent_filters; simpl.
    now rewrite Hb, Hdt, Hdoc.
Qed.

Lemma send_buttons_setup_le (w : World) :
  (length (send_buttons __ w) <= 1)%nat ->
  (length (send_buttons __ (exec setup w)) <= 1)%nat.
Proof.
  intros Hw.
  destruct (docstatus (doc (frm w)) =? 1)%Z eqn:Es.
  - destruct (includes supported (doctype (frm w))) eqn:Ed.
    + apply Z.eqb_eq in Es. rewrite send_buttons_after_setup by assumption.
      destruct (reports_enabled w); simpl; lia.
    + now rewrite setup_cases, Es, Ed.
  - now rewrite setup_cases, Es.
Qed.

(** C10: starting from a form with at most one send button, after any number
    of runs of the set-up (and whatever happens to the server and the
    document in between) the form has at most one send button, and its label
    is Send Email or Resend Email; a run that gets past its two guards
    removes the send buttons it finds and leaves exactly the one it adds, or
    none when the doctype is not enabled. *)
Theorem at_most_one_send_button (w0 w : World) :
  (length (send_buttons __ w0) <= 1)%nat ->
  refreshed __ w0 w ->
  (length (send_buttons __ w) <= 1)%nat
  /\ (forall b, In b (send_buttons __ w) ->
                fst b = __ "Send Email" \/ fst b = __ "Resend Email")
  /\ (docstatus (doc (frm w)) = 1%Z ->
      includes supported (doctype (frm w)) = true ->
      send_buttons __ (exec setup w) =
      if reports_enabled w then [(button_label __ w, show_dialog_handler)] else []).
Proof.
  intros H0 Hr. split; [|split].
  - induction Hr as [| w Hr IH | w w' Hr IH [_ Hb]].
    + exact H0.
    + now apply send_buttons_setup_le.
    + unfold send_buttons in *. now rewrite Hb.
  - intros b Hb. unfold send_buttons in Hb. apply filter_In in Hb as [_ Hb].
    unfold is_send_label in Hb. apply orb_true_iff in Hb.
    destruct Hb as [Hb|Hb]; apply String.eqb_eq in Hb; auto.
  - apply send_buttons_after_setup.
Qed.

End Refresh.

Lemma at_most_one_send_button_witness :
  (length (send_buttons untranslated
             (exec (SendEmailButton.setup_send_email_button untranslated)
                (exec (SendEmailButton.setup_send_email_button untranslated)
                   (sample_world "Quotation" "QTN-001" 1 [])))) <= 1)%nat.
Proof.
  refine (proj1 (at_most_one_send_button untranslated
                   (sample_world "Quotation" "QTN-001" 1 []) _ _ _)).
  - simpl. lia.
  - apply refreshed_setup, refreshed_setup, refreshed_start.
Defined.

Section PrintFormats.
Import EmailServiceSettings.

Lemma satisfies_print_format_filters (dt : value) (p : PrintFormat) :
  satisfies (object [("doc_type", dt); ("disabled", number 0)]) p = true <->
  str (doc_type p) = dt /\ disabled p = 0%Z.
Proof.
  unfold satisfies; simpl. rewrite !andb_true_iff, Z.eqb_eq.
  destruct dt; simpl; try (split; [intros [? _]; discriminate | intros [? _]; discriminate]).
  rewrite String.eqb_eq. split.
  - intros [-> [-> _]]. now split.
  - intros [H ->]. injection H as ->. now repeat split.
Qed.

Lemma no_filter_keeps_all (formats : list PrintFormat) :
  filter (satisfies undefined) formats = formats.
Proof.
  induction formats as [|p ps IH]; simpl; [reflexivity | now rewrite IH].
Qed.

(** C8, as amended: for a row whose [doctype_name] is set, the print formats
    offered are exactly the formats that are not disabled and whose
    [doc_type] is the row's [doctype_name], so a format picked from them
    belongs to the row's doctype; for a row whose [doctype_name] is not set
    the query has no filter and every print format is offered. *)
Theorem print_format_choices (row : Row) (formats : list PrintFormat) :
  (truthy (doctype_name row) = true ->
   forall p, In p (offered formats (print_format_query row)) <->
             In p formats /\ str (doc_type p) = doctype_name row
             /\ disabled p = 0%Z)
  /\ (truthy (doctype_name row) = true ->
      forall p, In p (offered formats (print_format_query row)) ->
                print_format (pick row p) = str (pf_name p)
                /\ doctype_name (pick row p) = str (doc_type p))
  /\ (truthy (doctype_name row) = false ->
      offered formats (print_format_query row) = formats).
Proof.
  assert (Hset : truthy (doctype_name row) = true ->
                 forall p, In p (offered formats (print_format_query row)) <->
                           In p formats /\ str (doc_type p) = doctype_name row
                           /\ disabled p = 0%Z).
  { intros Ht p. unfold offered, print_format_query. rewrite Ht. simpl.
    rewrite filter_In. now rewrite satisfies_print_format_filters. }
  split; [exact Hset | split].
  - intros Ht p Hp. apply (Hset Ht) in Hp as [_ [Hd _]]. simpl.
    split; [reflexivity | now symmetry].
  - intros Hf. unfold offered, print_format_query. rewrite Hf. simpl.
    apply no_filter_keeps_all.
Qed.

End PrintFormats.

(** C8, as stated, fails on a row whose [doctype_name] is not set yet: the
    query has no filter, so a disabled format and formats of several doctypes
    are among the choices, and picking one sets [print_format] on a row
    without a doctype. *)
Lemma unset_doctype_offers_every_format :
  EmailServiceSettings.doctype_name fresh_row = undefined
  /\ EmailServiceSettings.print_format_query fresh_row = object []
  /\ EmailServiceSettings.offered sample_formats
       (EmailServiceSettings.print_format_query fresh_row) = sample_formats
  /\ In {| EmailServiceSettings.pf_name := "Quotation Draft";
           EmailServiceSettings.doc_type := "Quotation";
           EmailServiceSettings.disabled := 1 |}
       (EmailServiceSettings.offered sample_formats
          (EmailServiceSettings.print_format_query fresh_row))
  /\ EmailServiceSettings.print_format
       (EmailServiceSettings.pick fresh_row
          {| EmailServiceSettings.pf_name := "Quotation Draft";
             EmailServiceSettings.doc_type := "Quotation";
             EmailServiceSettings.disabled := 1 |}) = str "Quotation Draft"
  /\ EmailServiceSettings.doctype_name
       (EmailServiceSettings.pick fresh_row
          {| EmailServiceSettings.pf_name := "Quotation Draft";
             EmailServiceSettings.doc_type := "Quotation";
             EmailServiceSettings.disabled := 1 |}) = undefined.
Proof.
  split; [reflexivity|]. split; [reflexivity|]. split; [reflexivity|].
  split; [simpl; tauto|]. split; reflexivity.
Qed.

Lemma print_format_choices_witness :
  truthy (EmailServiceSettings.doctype_name (row_for "Quotation")) = true
  /\ (In {| EmailServiceSettings.pf_name := "Quotation Letter";
            EmailServiceSettings.doc_type := "Quotation";
            EmailServiceSettings.disabled := 0 |}
         (EmailServiceSettings.offered sample_formats
            (EmailServiceSettings.print_format_query (row_for "Quotation")))
      <->
      In {| EmailServiceSettings.pf_name := "Quotation Letter";
            EmailServiceSettings.doc_type := "Quotation";
            EmailServiceSettings.disabled := 0 |} sample_formats
      /\ str "Quotation" = EmailServiceSettings.doctype_name (row_for "Quotation")
      /\ 0%Z = 0%Z).
Proof.
  split; [reflexivity|].
  exact (proj1 (print_format_choices (row_for "Quotation") sample_formats) eq_refl
           {| EmailServiceSettings.pf_name := "Quotation Letter";
              EmailServiceSettings.doc_type := "Quotation";
              EmailServiceSettings.disabled := 0 |}).
Defined.

(** * Further properties of the send scripts *)

Section OtherButtons.
Variable __ : string -> string.

Local Abbreviation setup := (SendEmailButton.setup_send_email_button __).
Local Abbreviation setup_only := (SendOnlyButton.setup_send_email_button __).
Local Abbreviation prompt := (SendEmailButton.prompt_send_email_after_submit __).

Lemma send_label_is_send_label : is_send_label __ (__ "Send Email") = true.
Proof. unfold is_send_label. now rewrite String.eqb_refl. Qed.

Lemma other_buttons_cleared (w : World) : other_buttons __ w = cleared __ w.
Proof. symmetry. apply cleared_as_filter. Qed.

Lemma other_buttons_with (w : World) (bs : list (string * handler)) :
  other_buttons __ (with_buttons w bs) =
  filter (fun b => negb (is_send_label __ (fst b))) bs.
Proof. reflexivity. Qed.

(** X1: neither set-up touches a button that does not carry a send label:
    the other buttons of the form are the same, in the same order, after a
    run as before it. *)
Theorem setup_keeps_other_buttons (w : World) :
  other_buttons __ (exec setup w) = other_buttons __ w
  /\ other_buttons __ (exec setup_only w) = other_buttons __ w.
Proof.
  split.
  - rewrite setup_cases.
    destruct (negb (docstatus _ =? 1)%Z); [reflexivity|].
    destruct (negb (includes _ _)); [reflexivity|].
    rewrite other_buttons_with, filter_app, cleared_as_filter, filter_twice.
    destruct (reports_enabled w); simpl.
    + rewrite button_label_is_send_label. simpl. now rewrite app_nil_r.
    + now rewrite app_nil_r.
  - rewrite send_only_setup_cases.
    destruct (negb (docstatus _ =? 1)%Z); [reflexivity|].
    destruct (negb (includes _ _)); [reflexivity|].
    destruct (reports_enabled w); [|reflexivity].
    rewrite other_buttons_with, filter_app. simpl.
    rewrite send_label_is_send_label. simpl. now rewrite app_nil_r.
Qed.

Lemma supported_by_both (dt : string) :
  includes SendEmailButton.SUPPORTED_DOCTYPES dt = true ->
  includes SendOnlyButton.SUPPORTED_DOCTYPES dt = true.
Proof.
  rewrite !includes_In. simpl. tauto.
Qed.

Lemma nothing_to_clear (w : World) :
  send_buttons __ w = [] -> cleared __ w = buttons w.
Proof.
  rewrite cleared_as_filter. unfold send_buttons.
  induction (buttons w) as [|b bs IH]; simpl; [reflexivity|].
  destruct (is_send_label __ (fst b)); simpl; [discriminate|].
  intros H. now rewrite IH.
Qed.

(** X3: on a form of a doctype the send/resend script supports, with no
    send button yet and no sent record of the document, the two scripts do
    the same: the set-up of the send/resend script gives the world the
    set-up of the send-only script gives. *)
Theorem scripts_agree_before_first_send (w : World) :
  includes SendEmailButton.SUPPORTED_DOCTYPES (doctype (frm w)) = true ->
  send_buttons __ w = [] ->
  eval SendEmailButton.check_email_sent w = false ->
  exec setup w = exec setup_only w.
Proof.
  intros Hd Hn Hc.
  rewrite setup_cases, send_only_setup_cases, Hd, (supported_by_both _ Hd).
  destruct (negb (docstatus _ =? 1)%Z); [reflexivity|]. simpl.
  rewrite (nothing_to_clear w Hn). unfold button_label. rewrite Hc.
  destruct (reports_enabled w); [reflexivity|].
  now rewrite app_nil_r, with_buttons_same.
Qed.

Lemma send_keeps_form (values : Values) (w : World) :
  frm (exec (SendEmailButton.send_document_email __ values) w) = frm w
  /\ api_check_doctype_email_enabled
       (backend (exec (SendEmailButton.send_document_email __ values) w)) =
     api_check_doctype_email_enabled (backend w).
Proof.
  unfold exec, SendEmailButton.send_document_email, bind, get_frm,
    call_send_document_email.
  destruct (api_send_document_email _ _ _ _ _) as [r cs]; simpl.
  destruct (truthy r && truthy (get_prop r "success")); simpl; now split.
Qed.

(** X4: a send leaves the form and its buttons alone; if the document was
    eligible and the table the server leaves after the send holds a sent
    record of the document, the next run of the set-up shows the one button
    labelled Resend Email. *)
Theorem resend_after_logged_send (values : Values) (w : World) :
  eligible w = true ->
  (exists c,
      In c (communications
              (backend (exec (SendEmailButton.send_document_email __ values) w)))
      /\ sent_record_of (doctype (frm w)) (name (doc (frm w))) c) ->
  buttons (exec (SendEmailButton.send_document_email __ values) w) = buttons w
  /\ buttons (exec setup (exec (SendEmailButton.send_document_email __ values) w)) =
     cleared __ w ++ [(__ "Resend Email", show_dialog_handler)].
Proof.
  intros He Hc.
  destruct (send_keeps_form values w) as [Hf Ha].
  set (w' := exec (SendEmailButton.send_document_email __ values) w) in *.
  assert (He' : eligible w' = true).
  { revert He. unfold eligible, reports_enabled, enabled_reply.
    now rewrite Hf, Ha. }
  split; [unfold buttons; now rewrite Hf|].
  rewrite (setup_eligible __ w' He').
  unfold buttons, with_buttons; simpl. f_equal.
  - unfold cleared, buttons. now rewrite Hf.
  - unfold button_label.
    replace (eval SendEmailButton.check_email_sent w') with true; [reflexivity|].
    symmetry. apply check_email_sent_iff. now rewrite Hf.
Qed.

(** X5: confirming the dialog hides it and then gives exactly one outcome:
    the success alert followed by a reload of the form when the reply
    reports success, the Email Failed notice alone otherwise; the form is
    reloaded only after a success. *)
Theorem confirm_gives_one_outcome (values : Values) (w : World) :
  exists outcome,
    ui (exec (SendEmailButton.run_handler __ send_handler values) w) =
    ui w ++ dialog_hide :: outcome
    /\ (send_succeeded w values = true ->
        outcome = [frappe_show_alert (__ "Email sent successfully") "green";
                   frm_reload_doc])
    /\ (send_succeeded w values = false ->
        exists m, outcome = [frappe_msgprint (__ "Email Failed") m "red"])
    /\ (In frm_reload_doc outcome <-> send_succeeded w values = true).
Proof.
  assert (H : ui (exec (SendEmailButton.run_handler __ send_handler values) w) =
              ui w ++ dialog_hide ::
              (if send_succeeded w values
               then [frappe_show_alert (__ "Email sent successfully") "green";
                     frm_reload_doc]
               else [frappe_msgprint (__ "Email Failed")
                       (if truthy (send_reply w values)
                        then get_prop (send_reply w values) "message"
                        else str (__ "Unknown error")) "red"])).
  { change (exec (SendEmailButton.run_handler __ send_handler values) w)
      with (exec (SendEmailButton.send_document_email __ values)
              (exec (show dialog_hide) w)).
    rewrite send_document_email_cases. unfold send_succeeded.
    change (send_reply (exec (show dialog_hide) w) values) with (send_reply w values).
    change (ui (exec (show dialog_hide) w)) with (ui w ++ [dialog_hide]).
    now rewrite <- app_assoc. }
  eexists. split; [exact H|].
  destruct (send_succeeded w values); (split; [|split]).
  - reflexivity.
  - discriminate.
  - split; [reflexivity | intros _; simpl; auto].
  - discriminate.
  - intros _. eexists. reflexivity.
  - split; [|discriminate]. simpl. intros [H1|[]]. discriminate.
Qed.

Lemma new_events_app {A : Type} (m : Desk A) (w : World) (es : list ui_event) :
  ui (exec m w) = ui w ++ es -> new_events m w = es.
Proof.
  intros H. unfold new_events. rewrite H. clear H.
  induction (ui w) as [|e l IH]; simpl; [reflexivity | exact IH].
Qed.

(** X6: the prompt after submit depends on the doctype of the form and on
    the server's answer about it only: two worlds that agree on these get
    the same prompt, whatever their submission status, buttons and send
    history; and the prompt leaves form and server as they are. *)
Theorem prompt_ignores_status_and_history (w w' : World) :
  doctype (frm w') = doctype (frm w) ->
  enabled_reply w' = enabled_reply w ->
  new_events prompt w' = new_events prompt w
  /\ frm (exec prompt w) = frm w
  /\ backend (exec prompt w) = backend w.
Proof.
  intros Hd Hr.
  assert (Hn : forall x, new_events prompt x =
                         if includes SendEmailButton.SUPPORTED_DOCTYPES (doctype (frm x))
                            && reports_enabled x
                         then [frappe_confirm
                                 (__ "Would you like to send an email to the customer?")
                                 show_dialog_handler noop_handler]
                         else []).
  { intros x. apply new_events_app. rewrite prompt_cases.
    destruct (includes _ _); simpl; [|now rewrite app_nil_r].
    destruct (reports_enabled x); simpl; [reflexivity | now rewrite app_nil_r]. }
  split; [|split].
  - rewrite !Hn. unfold reports_enabled. now rewrite Hd, Hr.
  - rewrite prompt_cases. destruct (negb _); [reflexivity|].
    now destruct (reports_enabled w).
  - rewrite prompt_cases. destruct (negb _); [reflexivity|].
    now destruct (reports_enabled w).
Qed.

(** X7: the hooks registered per supported doctype add nothing to the guards
    of the functions they call: on every form the refresh hook does what the
    set-up does and the after-submit hook does what the prompt does, in both
    scripts. *)
Theorem hooks_are_the_functions (w : World) :
  exec (SendEmailButton.on_refresh __) w = exec setup w
  /\ exec (SendEmailButton.on_after_submit __) w = exec prompt w
  /\ exec (SendOnlyButton.on_refresh __) w = exec setup_only w.
Proof.
  split; [|split].
  - unfold SendEmailButton.on_refresh, exec at 1, bind, get_frm.
    destruct (includes _ _) eqn:E; [reflexivity|].
    rewrite setup_cases, E. now destruct (negb _).
  - unfold SendEmailButton.on_after_submit, exec at 1, bind, get_frm.
    destruct (includes _ _) eqn:E; [reflexivity|].
    now rewrite prompt_cases, E.
  - unfold SendOnlyButton.on_refresh, exec at 1, bind, get_frm.
    destruct (includes _ _) eqn:E; [reflexivity|].
    rewrite send_only_setup_cases, E. now destruct (negb _).
Qed.

End OtherButtons.

Lemma scripts_agree_before_first_send_witness :
  exec (SendEmailButton.setup_send_email_button untranslated)
    (sample_world "Quotation" "QTN-001" 1 [])
  = exec (SendOnlyButton.setup_send_email_button untranslated)
      (sample_world "Quotation" "QTN-001" 1 []).
Proof.
  exact (scripts_agree_before_first_send untranslated
           (sample_world "Quotation" "QTN-001" 1 []) eq_refl eq_refl eq_refl).
Defined.

Lemma resend_after_logged_send_witness :
  buttons (exec (SendEmailButton.setup_send_email_button untranslated)
             (exec (SendEmailButton.send_document_email untranslated sample_values)
                (sample_world "Quotation" "QTN-001" 1 [])))
  = [("Resend Email", show_dialog_handler)].
Proof.
  refine (proj2 (resend_after_logged_send untranslated sample_values
                   (sample_world "Quotation" "QTN-001" 1 []) eq_refl _)).
  exists (record_of "Quotation" "QTN-001" Success).
  split; [now left | now repeat split].
Defined.

Lemma prompt_ignores_status_and_history_witness :
  new_events (SendEmailButton.prompt_send_email_after_submit untranslated)
    (sample_world "Quotation" "QTN-009" 2 [record_of "Quotation" "QTN-009" Success])
  = new_events (SendEmailButton.prompt_send_email_after_submit untranslated)
      (sample_world "Quotation" "QTN-001" 1 []).
Proof.
  exact (proj1 (prompt_ignores_status_and_history untranslated
                  (sample_world "Quotation" "QTN-001" 1 [])
                  (sample_world "Quotation" "QTN-009" 2
                     [record_of "Quotation" "QTN-009" Success])
                  eq_refl eq_refl)).
Defined.

(** * Properties of the settings script *)

Section SettingsForm.
Import EmailServiceSettings.
Variable __ : string -> string.
Variable __with : string -> list value -> string.

Lemma string_append_assoc (a b c : string) :
  String.append (String.append a b) c = String.append a (String.append b c).
Proof. induction a as [|x a IH]; simpl; [reflexivity | now rewrite IH]. Qed.

Lemma string_append_empty (a : string) : String.append a EmptyString = a.
Proof. induction a as [|x a IH]; simpl; [reflexivity | now rewrite IH]. Qed.

Lemma rows_accumulate (f : AvailableDoctype -> string) (l : list AvailableDoctype)
    (html : string) :
  fold_left (fun html dt => String.append html (f dt)) l html =
  String.append html (flat (map f l)).
Proof.
  revert html. induction l as [|dt l IH]; intros html; simpl.
  - now rewrite string_append_empty.
  - now rewrite IH, string_append_assoc.
Qed.

Lemma children_accumulate (l : list AvailableDoctype) (frm : Settings) :
  fold_left (fun frm dt => add_child (unconfigured_row dt) frm) l frm =
  {| supported_doctypes := supported_doctypes frm ++ map unconfigured_row l;
     settings_buttons := settings_buttons frm;
     shown := shown frm |}.
Proof.
  revert frm. induction l as [|dt l IH]; intros frm; simpl.
  - rewrite app_nil_r. now destruct frm.
  - rewrite IH. unfold add_child; simpl. now rewrite <- app_assoc.
Qed.

Lemma js_or_filled (v : value) : filled (js_or v (str EmptyString)).
Proof.
  unfold filled, js_or. destruct (truthy v) eqn:E; [now left | now right].
Qed.

Lemma unconfigured_of_In (l : list AvailableDoctype) (dt : AvailableDoctype) :
  In dt (unconfigured_of l) <-> In dt l /\ truthy (is_configured dt) = false.
Proof.
  unfold unconfigured_of. rewrite filter_In, negb_true_iff. tauto.
Qed.

Lemma no_unconfigured_iff (l : list AvailableDoctype) :
  (0 <? length (unconfigured_of l))%nat = false <->
  forall dt, In dt l -> truthy (is_configured dt) = true.
Proof.
  unfold unconfigured_of. induction l as [|dt l IH]; simpl.
  - split; [intros _ dt [] | reflexivity].
  - destruct (truthy (is_configured dt)) eqn:E; simpl.
    + rewrite IH. split.
      * intros H x [<-|Hx]; [exact E | now apply H].
      * intros H x Hx. apply H. now right.
    + split; [discriminate|]. intros H. specialize (H dt (or_introl eq_refl)).
      congruence.
Qed.

(** X8: Detect Available Doctypes is silent when the server has no answer;
    on an answer, even an empty list, it shows one dialog, titled Available
    Doctypes and holding the table of the reply, and leaves rows and buttons
    alone.  When some reported doctype is not configured, the dialog's
    primary action is the closure that adds the doctypes that are not
    configured, in the order of the reply, and its label is Add All
    Unconfigured; when all are configured the dialog has neither. *)
Theorem detect_offers_the_unconfigured (l : list AvailableDoctype) (frm : Settings) :
  on_detect __ None frm = frm
  /\ exists d,
       on_detect __ (Some l) frm =
       {| supported_doctypes := supported_doctypes frm;
          settings_buttons := settings_buttons frm;
          shown := shown frm ++ [list_dialog_show d] |}
       /\ list_title d = __ "Available Doctypes"
       /\ list_html d = available_doctypes_html __ l
       /\ ((exists dt, In dt l /\ truthy (is_configured dt) = false) ->
           list_primary_action d =
           Some (add_all_action
                   (filter (fun dt => negb (truthy (is_configured dt))) l))
           /\ list_primary_action_label d = Some (__ "Add All Unconfigured"))
       /\ ((forall dt, In dt l -> truthy (is_configured dt) = true) ->
           list_primary_action d = None /\ list_primary_action_label d = None)
       /\ (list_primary_action d = None <->
           forall dt, In dt l -> truthy (is_configured dt) = true)
       /\ (list_primary_action_label d = None <-> list_primary_action d = None)
       /\ (forall u, list_primary_action d = Some (add_all_action u) ->
                     forall dt, In dt u <->
                                In dt l /\ truthy (is_configured dt) = false).
Proof.
  split; [reflexivity|]. eexists. split; [reflexivity|]. simpl.
  split; [reflexivity | split; [reflexivity|]].
  destruct (0 <? length (unconfigured_of l))%nat eqn:E.
  - assert (Hsome : ~ forall dt, In dt l -> truthy (is_configured dt) = true).
    { intros H. apply no_unconfigured_iff in H. congruence. }
    split; [now split | split; [intros H; now destruct (Hsome H)|]].
    split; [|split].
    + split; [discriminate | intros H; now destruct (Hsome H)].
    + split; discriminate.
    + intros u Hu. injection Hu as <-. apply unconfigured_of_In.
  - assert (Hall : forall dt, In dt l -> truthy (is_configured dt) = true)
      by now apply no_unconfigured_iff.
    split; [|split; [now split|]].
    + intros [dt [Hin Hf]]. rewrite (Hall dt Hin) in Hf. discriminate.
    + split; [|split].
      * split; [intros _; exact Hall | reflexivity].
      * split; reflexivity.
      * discriminate.
Qed.

(** X9: the table of the dialog has one row per reported doctype, in the
    order of the reply, between a fixed head and foot; the hint about Add All
    Unconfigured is there exactly when some doctype is not configured. *)
Theorem available_doctypes_table (l : list AvailableDoctype) :
  available_doctypes_html __ l =
  String.append (table_head __)
    (String.append (flat (map (table_row __) l))
       (String.append "</tbody></table>"
          (String.append
             (if existsb (fun dt => negb (truthy (is_configured dt))) l
              then String.append "<p class='text-muted'>"
                     (String.append
                        (__ "Click 'Add All Unconfigured' to add all unconfigured doctypes to the list.")
                        "</p>")
              else EmptyString)
             "</div>"))).
Proof.
  unfold available_doctypes_html. rewrite rows_accumulate.
  replace (0 <? length (unconfigured_of l))%nat
    with (existsb (fun dt => negb (truthy (is_configured dt))) l).
  - destruct (existsb _ l); now rewrite !string_append_assoc.
  - unfold unconfigured_of. induction l as [|dt l IH]; simpl; [reflexivity|].
    destruct (negb (truthy (is_configured dt))); simpl; [reflexivity | exact IH].
Qed.

Lemma add_unconfigured_cases (l : list AvailableDoctype) (frm : Settings) :
  add_unconfigured_doctypes __with l frm =
  {| supported_doctypes := supported_doctypes frm ++ map unconfigured_row l;
     settings_buttons := settings_buttons frm;
     shown := shown frm ++
              [refresh_field "supported_doctypes";
               show_alert (__with "{0} doctypes added to configuration"
                             [number (Z.of_nat (length l))]) "green" 5] |}.
Proof.
  unfold add_unconfigured_doctypes. rewrite children_accumulate.
  unfold say; simpl. now rewrite <- app_assoc.
Qed.

(** X10: adding doctypes keeps every row that was there, in place, and puts
    one new row per doctype after them, in order; the alert announces the
    number of rows added; nothing checks for a row of the same doctype, so
    adding twice gives the rows twice. *)
Theorem add_unconfigured_appends (l l' : list AvailableDoctype) (frm : Settings) :
  supported_doctypes (add_unconfigured_doctypes __with l frm) =
  supported_doctypes frm ++ map unconfigured_row l
  /\ length (supported_doctypes (add_unconfigured_doctypes __with l frm)) =
     (length (supported_doctypes frm) + length l)%nat
  /\ shown (add_unconfigured_doctypes __with l frm) =
     shown frm ++
     [refresh_field "supported_doctypes";
      show_alert (__with "{0} doctypes added to configuration"
                    [number (Z.of_nat (length l))]) "green" 5]
  /\ supported_doctypes
       (add_unconfigured_doctypes __with l'
          (add_unconfigured_doctypes __with l frm)) =
     supported_doctypes frm ++ map unconfigured_row l ++ map unconfigured_row l'.
Proof.
  rewrite !add_unconfigured_cases. simpl.
  split; [reflexivity | split; [|split; [reflexivity|]]].
  - now rewrite length_app, length_map.
  - now rewrite <- app_assoc.
Qed.

(** X11: every row after an addition is a row from before or a row written
    for one of the doctypes: enabled and require_submit are 1, the doctype is
    the reported one, no print format is set, and the recipient field, the
    recipient doctype and the source app are a truthy value or the empty
    string, never [undefined] or [null]. *)
Theorem added_rows_are_filled (l : list AvailableDoctype) (frm : Settings) (r : Row) :
  In r (supported_doctypes (add_unconfigured_doctypes __with l frm)) ->
  In r (supported_doctypes frm)
  \/ exists dt, In dt l
       /\ doctype_name r = str (doctype dt)
       /\ enabled r = number 1 /\ require_submit r = number 1
       /\ print_format r = undefined
       /\ filled (recipient_field r) /\ filled (recipient_doctype r)
       /\ filled (source_app r).
Proof.
  rewrite add_unconfigured_cases. simpl. rewrite in_app_iff, in_map_iff.
  intros [H | [dt [<- Hdt]]]; [now left | right].
  exists dt. simpl. repeat split; try assumption; apply js_or_filled.
Qed.

(** X12: the primary action of the dialog Detect shows adds a row for each
    reported doctype that is not configured, and for no other, after the rows
    of the form, and then hides the dialog. *)
Theorem add_all_adds_the_unconfigured (server : SettingsServer)
    (l : list AvailableDoctype) (frm frm' : Settings) (d : ListDialog) (a : action) :
  shown (on_detect __ (Some l) frm) = shown frm ++ [list_dialog_show d] ->
  list_primary_action d = Some a ->
  supported_doctypes (run_action __ __with server a frm') =
  supported_doctypes frm' ++ map unconfigured_row (unconfigured_of l)
  /\ shown (run_action __ __with server a frm') =
     shown frm' ++
     [refresh_field "supported_doctypes";
      show_alert (__with "{0} doctypes added to configuration"
                    [number (Z.of_nat (length (unconfigured_of l)))]) "green" 5;
      list_dialog_hide]
  /\ (forall r, In r (supported_doctypes (run_action __ __with server a frm')) ->
                In r (supported_doctypes frm')
                \/ exists dt, In dt l /\ truthy (is_configured dt) = false
                              /\ r = unconfigured_row dt).
Proof.
  intros Hs Ha. simpl in Hs. apply app_inv_head in Hs. injection Hs as <-.
  simpl in Ha. destruct (0 <? length (unconfigured_of l))%nat; [|discriminate].
  injection Ha as <-. unfold run_action. rewrite add_unconfigured_cases.
  unfold say. simpl.
  split; [reflexivity | split; [now rewrite <- app_assoc|]].
  intros r. rewrite in_app_iff, in_map_iff.
  intros [H | [dt [<- Hdt]]]; [now left | right].
  apply unconfigured_of_In in Hdt as [H1 H2]. now exists dt.
Qed.

(** X13: the Test Connection callback shows exactly one notice and changes
    no row and no button: green, Connection Successful, when the reply
    reports success; red, Connection Failed, otherwise, with the reply's
    message as it is when there is a reply and the script's own text when
    there is none. *)
Theorem test_connection_notice (message : value) (frm : Settings) :
  exists t i m,
    on_test_connection __ message frm =
    {| supported_doctypes := supported_doctypes frm;
       settings_buttons := settings_buttons frm;
       shown := shown frm ++ [msgprint t i m] |}
    /\ (truthy message && truthy (get_prop message "success") = true ->
        t = __ "Connection Successful" /\ i = "green")
    /\ (truthy message && truthy (get_prop message "success") = false ->
        t = __ "Connection Failed" /\ i = "red"
        /\ (truthy message = true -> m = get_prop message "message")
        /\ (truthy message = false ->
            m = str (__ "Failed to connect to Resend API.")))
    /\ (i = "green" <-> truthy message && truthy (get_prop message "success") = true).
Proof.
  unfold on_test_connection.
  destruct (truthy message && truthy (get_prop message "success")) eqn:E.
  - do 3 eexists. split; [reflexivity|].
    split; [now split | split; [discriminate|]]. split; reflexivity.
  - do 3 eexists. split; [reflexivity|].
    split; [discriminate | split].
    + intros _. split; [reflexivity | split; [reflexivity|]].
      split; intros ->; reflexivity.
    + split; discriminate.
Qed.

End SettingsForm.

Section ConfigurationRows.
Import EmailServiceSettings.

Lemma on_doctype_name_cases (server : SettingsServer) (row : Row) :
  on_doctype_name server row =
  if truthy (doctype_name row) && truthy (get_doctype_defaults server (doctype_name row))
  then {| doctype_name := doctype_name row;
          print_format := print_format row;
          enabled := enabled row;
          recipient_field :=
            js_or (get_prop (get_doctype_defaults server (doctype_name row))
                     "recipient_field") (str EmptyString);
          recipient_doctype :=
            js_or (get_prop (get_doctype_defaults server (doctype_name row))
                     "recipient_doctype") (str EmptyString);
          source_app :=
            js_or (get_prop (get_doctype_defaults server (doctype_name row))
                     "source_app") (str EmptyString);
          require_submit := require_submit row |}
  else row.
Proof.
  unfold on_doctype_name. destruct (truthy (doctype_name row)); simpl; [|reflexivity].
  now destruct (truthy (get_doctype_defaults server (doctype_name row))).
Qed.

(** X14: the handler of a row's doctype never touches the doctype, the print
    format, enabled or require_submit; it leaves the whole row alone when the
    doctype is not set or the server has no defaults; when it writes, each of
    the recipient field, recipient doctype and source app becomes the default
    the server gave for it when that is truthy and the empty string
    otherwise, so none is left [undefined] or [null]; running it again
    changes nothing more. *)
Theorem doctype_handler_effect (server : SettingsServer) (row : Row) :
  (doctype_name (on_doctype_name server row) = doctype_name row
   /\ print_format (on_doctype_name server row) = print_format row
   /\ enabled (on_doctype_name server row) = enabled row
   /\ require_submit (on_doctype_name server row) = require_submit row)
  /\ (truthy (doctype_name row) = false
      \/ truthy (get_doctype_defaults server (doctype_name row)) = false ->
      on_doctype_name server row = row)
  /\ (truthy (doctype_name row) = true ->
      truthy (get_doctype_defaults server (doctype_name row)) = true ->
      filled (recipient_field (on_doctype_name server row))
      /\ filled (recipient_doctype (on_doctype_name server row))
      /\ filled (source_app (on_doctype_name server row)))
  /\ on_doctype_name server (on_doctype_name server row) = on_doctype_name server row
  /\ (truthy (doctype_name row) = true ->
      truthy (get_doctype_defaults server (doctype_name row)) = true ->
      forall defaults, defaults = get_doctype_defaults server (doctype_name row) ->
      recipient_field (on_doctype_name server row) =
        (if truthy (get_prop defaults "recipient_field")
         then get_prop defaults "recipient_field" else str EmptyString)
      /\ recipient_doctype (on_doctype_name server row) =
         (if truthy (get_prop defaults "recipient_doctype")
          then get_prop defaults "recipient_doctype" else str EmptyString)
      /\ source_app (on_doctype_name server row) =
         (if truthy (get_prop defaults "source_app")
          then get_prop defaults "source_app" else str EmptyString)).
Proof.
  assert (Hk : doctype_name (on_doctype_name server row) = doctype_name row).
  { rewrite on_doctype_name_cases. now destruct (_ && _). }
  split; [|split; [|split; [|split]]].
  - split; [exact Hk|]. rewrite on_doctype_name_cases.
    destruct (_ && _); now repeat split.
  - intros H. rewrite on_doctype_name_cases.
    destruct H as [-> | ->]; [reflexivity | now rewrite andb_false_r].
  - intros H1 H2. rewrite on_doctype_name_cases, H1, H2. simpl.
    repeat split; apply js_or_filled.
  - rewrite (on_doctype_name_cases server (on_doctype_name server row)), Hk.
    rewrite (on_doctype_name_cases server row).
    destruct (_ && _); reflexivity.
  - intros H1 H2 defaults ->. rewrite on_doctype_name_cases, H1, H2. simpl.
    split; [|split]; reflexivity.
Qed.

Lemma offered_with_doctype (formats : list PrintFormat) (row : Row) (p : PrintFormat) :
  truthy (doctype_name row) = true ->
  In p (offered formats (print_format_query row)) <->
  In p formats /\ str (doc_type p) = doctype_name row /\ disabled p = 0%Z.
Proof.
  intros Ht. unfold offered, print_format_query. rewrite Ht. simpl.
  rewrite filter_In. now rewrite satisfies_print_format_filters.
Qed.

(** X15: changing the doctype of a row does not clear its print format: a
    format picked while the row had one doctype is still the row's print
    format after the doctype was changed to another one, although it is no
    longer among the formats offered for the row. *)
Theorem stale_print_format (server : SettingsServer) (formats : list PrintFormat)
    (row : Row) (p : PrintFormat) (other : string) :
  truthy (doctype_name row) = true ->
  In p (offered formats (print_format_query row)) ->
  other <> EmptyString ->
  doctype_name row <> str other ->
  print_format (change_doctype server (str other) (pick row p)) = str (pf_name p)
  /\ doctype_name (change_doctype server (str other) (pick row p)) = str other
  /\ ~ In p (offered formats
               (print_format_query (change_doctype server (str other) (pick row p)))).
Proof.
  intros Ht Hp Ho Hd. unfold change_doctype.
  assert (Hn : doctype_name (on_doctype_name server (set_doctype_name (str other) (pick row p)))
               = str other).
  { rewrite on_doctype_name_cases. now destruct (_ && _). }
  assert (Hf : print_format (on_doctype_name server (set_doctype_name (str other) (pick row p)))
               = str (pf_name p)).
  { rewrite on_doctype_name_cases. now destruct (_ && _). }
  split; [exact Hf | split; [exact Hn|]].
  intros Hin. apply offered_with_doctype in Hin.
  - destruct Hin as [_ [Heq _]]. rewrite Hn in Heq.
    apply (offered_with_doctype formats row p Ht) in Hp as [_ [Hrow _]].
    congruence.
  - rewrite Hn. simpl. destruct other; [congruence | reflexivity].
Qed.

(** X16: a row written by Add All Unconfigured for a doctype with a name gets
    the filtered print-format choices: exactly the formats that are not
    disabled and belong to that doctype. *)
Theorem added_row_print_formats (dt : AvailableDoctype)
    (formats : list PrintFormat) (p : PrintFormat) :
  doctype dt <> EmptyString ->
  In p (offered formats (print_format_query (unconfigured_row dt))) <->
  In p formats /\ doc_type p = doctype dt /\ disabled p = 0%Z.
Proof.
  intros Hd. rewrite offered_with_doctype.
  - simpl. split; intros [H1 [H2 H3]]; repeat split; congruence.
  - simpl. destruct (doctype dt); [congruence | reflexivity].
Qed.

End ConfigurationRows.

Lemma added_rows_are_filled_witness :
  In (EmailServiceSettings.unconfigured_row
        {| EmailServiceSettings.doctype := "Sales Order";
           EmailServiceSettings.app := "erpnext";
           EmailServiceSettings.category := "Selling";
           EmailServiceSettings.is_configured := boolean false;
           EmailServiceSettings.default_recipient_field := str "customer";
           EmailServiceSettings.default_recipient_doctype := str "Customer" |})
     (EmailServiceSettings.supported_doctypes (settings_with [row_for "Quotation"]))
  \/ exists dt, In dt sample_available
       /\ str "Sales Order" = str (EmailServiceSettings.doctype dt)
       /\ number 1 = number 1 /\ number 1 = number 1
       /\ undefined = undefined
       /\ filled (str "customer") /\ filled (str "Customer")
       /\ filled (str "erpnext").
Proof.
  apply (added_rows_are_filled untranslated_with sample_available
           (settings_with [row_for "Quotation"])).
  simpl. auto.
Defined.

Lemma add_all_adds_the_unconfigured_witness :
  EmailServiceSettings.supported_doctypes
    (EmailServiceSettings.run_action untranslated untranslated_with
       sample_settings_server
       (EmailServiceSettings.add_all_action
          (EmailServiceSettings.unconfigured_of sample_available))
       (settings_with [row_for "Quotation"]))
  = EmailServiceSettings.supported_doctypes (settings_with [row_for "Quotation"])
    ++ map EmailServiceSettings.unconfigured_row
         (EmailServiceSettings.unconfigured_of sample_available).
Proof.
  exact (proj1 (add_all_adds_the_unconfigured untranslated untranslated_with
                  sample_settings_server sample_available
                  (settings_with []) (settings_with [row_for "Quotation"])
                  _ _ eq_refl eq_refl)).
Defined.

Lemma stale_print_format_witness :
  EmailServiceSettings.print_format
    (EmailServiceSettings.change_doctype sample_settings_server (str "Sales Order")
       (EmailServiceSettings.pick (row_for "Quotation")
          {| EmailServiceSettings.pf_name := "Quotation Letter";
             EmailServiceSettings.doc_type := "Quotation";
             EmailServiceSettings.disabled := 0 |}))
  = str "Quotation Letter".
Proof.
  refine (proj1 (stale_print_format sample_settings_server sample_formats
                   (row_for "Quotation")
                   {| EmailServiceSettings.pf_name := "Quotation Letter";
                      EmailServiceSettings.doc_type := "Quotation";
                      EmailServiceSettings.disabled := 0 |}
                   "Sales Order" eq_refl _ _ _)).
  - simpl. auto.
  - discriminate.
  - discriminate.
Defined.

Lemma added_row_print_formats_witness :
  In {| EmailServiceSettings.pf_name := "Order Sheet";
        EmailServiceSettings.doc_type := "Sales Order";
        EmailServiceSettings.disabled := 0 |}
     (EmailServiceSettings.offered sample_formats
        (EmailServiceSettings.print_format_query
           (EmailServiceSettings.unconfigured_row
              {| EmailServiceSettings.doctype := "Sales Order";
                 EmailServiceSettings.app := "erpnext";
                 EmailServiceSettings.category := "Selling";
                 EmailServiceSettings.is_configured := boolean false;
                 EmailServiceSettings.default_recipient_field := str "customer";
                 EmailServiceSettings.default_recipient_doctype := str "Customer" |}))).
Proof.
  apply (added_row_print_formats
           {| EmailServiceSettings.doctype := "Sales Order";
              EmailServiceSettings.app := "erpnext";
              EmailServiceSettings.category := "Selling";
              EmailServiceSettings.is_configured := boolean false;
              EmailServiceSettings.default_recipient_field := str "customer";
              EmailServiceSettings.default_recipient_doctype := str "Customer" |}
           sample_formats).
  - discriminate.
  - simpl. auto.
Defined.

(** * The dispatch flow behind the send button *)

Section ResendFlow.
Variable __ : string -> string.

Local Abbreviation setup := (SendEmailButton.setup_send_email_button __).
Local Abbreviation check := SendEmailButton.check_email_sent.

Lemma find_added_button (w : World) (l : string) (h : handler) :
  is_send_label __ l = true ->
  find (fun b : string * handler => fst b =? l) (cleared __ w ++ [(l, h)]) =
  Some (l, h).
Proof.
  intros Hl. rewrite cleared_as_filter.
  induction (buttons w) as [|b bs IH]; simpl.
  - now rewrite String.eqb_refl.
  - destruct (is_send_label __ (fst b)) eqn:E; simpl; [exact IH|].
    destruct (fst b =? l) eqn:El; [|exact IH].
    apply String.eqb_eq in El. congruence.
Qed.

Lemma last_dialog_shown (es : list ui_event) (d : Dialog) :
  last_dialog (es ++ [dialog_show d]) = Some d.
Proof.
  induction es as [|e es IH]; simpl; [reflexivity | now rewrite IH].
Qed.

(** The whole flow on an eligible document: a click on the button the set-up
    added opens the dialog with the suggested recipient; confirming it hides
    the dialog, calls the server's send method for the document with the
    values entered, keeps the table the method leaves and shows the outcome
    of its reply. *)
Lemma dispatch_flow (w : World) (values : Values) :
  eligible w = true ->
  exec (click __ (button_label __ w) values ;;; confirm_dialog __ values)
    (exec setup w) =
  {| backend := backend (with_communications w (send_log w values));
     frm := frm (exec setup w);
     ui := ui w ++ dialog_show (send_dialog __ (suggested w))
                 :: dialog_hide :: outcome __ w values |}.
Proof.
  intros He. rewrite (setup_eligible __ w He).
  unfold exec at 1, click, bind, get_frm. cbn [frm with_buttons custom_buttons].
  rewrite find_added_button by apply button_label_is_send_label.
  cbn [snd SendEmailButton.run_handler].
  pose proof (show_send_email_dialog_cases __
                (with_buttons w (cleared __ w ++
                                 [(button_label __ w, show_dialog_handler)]))) as Hd.
  unfold exec in Hd.
  destruct (SendEmailButton.show_send_email_dialog __ _) as [u w1].
  simpl in Hd. subst w1. unfold confirm_dialog. cbn [ui].
  rewrite last_dialog_shown. cbn [primary_action send_dialog SendEmailButton.run_handler].
  unfold bind, show, SendEmailButton.send_document_email, bind, get_frm,
    call_send_document_email, outcome, send_succeeded, send_reply, send_log,
    suggested, recipient_reply. cbn [backend frm ui with_buttons doctype doc].
  destruct (api_send_document_email _ _ _ _ _) as [r cs]. cbn [fst snd].
  destruct (truthy r && truthy (get_prop r "success")); simpl;
    unfold with_buttons; simpl; repeat rewrite <- app_assoc; reflexivity.
Qed.

(** C6: a prior successful send never blocks a resend.  An eligible document
    with a successful send record gets the one button, labelled Resend Email,
    with the closure a first send gets.  Clicking it and confirming the
    dialog runs the dispatch: the dialog opens with the suggested recipient,
    is hidden, the server's send method is called for the document with the
    values entered, the table it leaves is kept and the outcome of its reply
    is shown.  The flow is the same for every send history, a first send
    included: the script never reads the history after it chose the label. *)
Theorem resend_stays_available (w : World) :
  eligible w = true ->
  spec_hasSuccessfulSend (communications (backend w))
    (doctype (frm w)) (name (doc (frm w))) = true ->
  buttons (exec setup w) = cleared __ w ++ [(__ "Resend Email", show_dialog_handler)]
  /\ (forall cs,
        buttons (exec setup (with_communications w cs)) =
        cleared __ w ++ [(button_label __ (with_communications w cs),
                          show_dialog_handler)])
  /\ buttons (exec setup (with_communications w [])) =
     cleared __ w ++ [(__ "Send Email", show_dialog_handler)]
  /\ (forall cs values,
        exec (SendEmailButton.run_handler __ show_dialog_handler values)
          (with_communications w cs) =
        with_communications (exec (SendEmailButton.show_send_email_dialog __) w) cs)
  /\ (forall values,
        exec (click __ (__ "Resend Email") values ;;; confirm_dialog __ values)
          (exec setup w) =
        {| backend := backend (with_communications w (send_log w values));
           frm := frm (exec setup w);
           ui := ui w ++ dialog_show (send_dialog __ (suggested w))
                       :: dialog_hide :: outcome __ w values |})
  /\ (forall cs values,
        exec (click __ (button_label __ (with_communications w cs)) values ;;;
              confirm_dialog __ values)
          (exec setup (with_communications w cs)) =
        {| backend := backend (with_communications w
                                 (send_log (with_communications w cs) values));
           frm := frm (exec setup (with_communications w cs));
           ui := ui w ++ dialog_show (send_dialog __ (suggested w))
                       :: dialog_hide
                       :: outcome __ (with_communications w cs) values |}).
Proof.
  intros He Hs.
  assert (Hany : forall cs,
             buttons (exec setup (with_communications w cs)) =
             cleared __ w ++ [(button_label __ (with_communications w cs),
                               show_dialog_handler)]).
  { intros cs. rewrite setup_eligible by exact He. reflexivity. }
  assert (Hl : button_label __ w = __ "Resend Email").
  { unfold button_label. replace (eval check w) with true; [reflexivity|].
    symmetry. apply check_email_sent_iff.
    destruct (successful_send_is_sent_record _ _ _ Hs) as [c [Hin [Hc _]]].
    now exists c. }
  split; [|split; [|split; [|split; [|split]]]].
  - rewrite (setup_eligible __ w He). now rewrite Hl.
  - exact Hany.
  - rewrite Hany. reflexivity.
  - reflexivity.
  - intros values. rewrite <- Hl. apply dispatch_flow. exact He.
  - intros cs values.
    exact (dispatch_flow (with_communications w cs) values He).
Qed.

End ResendFlow.

Lemma resend_stays_available_witness :
  buttons (exec (SendEmailButton.setup_send_email_button untranslated)
             (sample_world "Quotation" "QTN-001" 1
                [record_of "Quotation" "QTN-001" Success]))
  = [("Resend Email", show_dialog_handler)]
  /\ communications
       (backend
          (exec (click untranslated "Resend Email" sample_values ;;;
                 confirm_dialog untranslated sample_values)
             (exec (SendEmailButton.setup_send_email_button untranslated)
                (sample_world "Quotation" "QTN-001" 1
                   [record_of "Quotation" "QTN-001" Success]))))
     = [record_of "Quotation" "QTN-001" Success;
        record_of "Quotation" "QTN-001" Success].
Proof.
  split.
  - exact (proj1 (resend_stays_available untranslated
                    (sample_world "Quotation" "QTN-001" 1
                       [record_of "Quotation" "QTN-001" Success])
                    eq_refl eq_refl)).
  - exact (f_equal (fun x => communications (backend x))
             (proj1 (proj2 (proj2 (proj2 (proj2
                (resend_stays_available untranslated
                   (sample_world "Quotation" "QTN-001" 1
                      [record_of "Quotation" "QTN-001" Success])
                   eq_refl eq_refl))))) sample_values)).
Defined.
